(** * Tuneline: timeline layout, pagination and the scrobble-fetching hook

    A shallow embedding of the frontend's timeline code:
    - [ScrobbleTimeline]     (components/ScrobbleTimeline.tsx): width,
      positions, time markers, scroll target;
    - [MUIScrobbleTimeline]  (components/MUIScrobbleTimeline.tsx): pagination;
    - [UseScrobbleTimeline]  (hooks/useScrobbleTimeline.ts): the state the
      hook holds and how fetch outcomes update it.

    Instants ([Date] values, and the instant an ISO [listened_at] string
    denotes) are integers: milliseconds since the epoch, as [Date.getTime]
    returns them.  Integer-valued JavaScript numbers (lengths, day counts,
    pixel widths, page numbers) are [Z]; they stay far below 2^53, where
    doubles are exact.  The one place where the code divides, the quotient is
    an extended rational ([JSNum.t]) so that division by zero yields what
    JavaScript yields.  date-fns' [differenceInDays] counts days of the
    local calendar; the layout code takes it as a parameter, and
    [DateFns.differenceInDays_24h] is its value in a zone with a fixed
    offset from UTC. *)

From Stdlib Require Import ZArith QArith Qminmax Qround List Bool String Lia.
From Stdlib Require Import Sorted Permutation.
Import ListNotations.

Local Open Scope Z_scope.

(** ** Data model (types/index.ts) *)

Record Scrobble : Type := mkScrobble {
  id : Z;
  user_id : Z;
  artist : string;
  album : option string;
  track : string;
  listened_at : Z;          (* the instant [new Date(listened_at)] denotes *)
  image_url : option string;
  created_at : string
}.

(** A scrobble with the given id and instant, for concrete evaluations. *)
Definition sampleScrobble (i t : Z) : Scrobble :=
  mkScrobble i 1 "artist" None "track" t None "2025-04-03T00:00:00Z".

(** [TimeRange] of hooks/useScrobbleTimeline.ts; [end] is reserved in Rocq. *)
Record TimeRange : Type := mkTimeRange {
  start : Z;
  end_ : Z
}.

(** ** The two date-fns functions the layout code calls *)

Module DateFns.

Definition MS_PER_DAY : Z := 86400000.

(** [differenceInMilliseconds(dateLeft, dateRight)]. *)
Definition differenceInMilliseconds (dateLeft dateRight : Z) : Z :=
  dateLeft - dateRight.

(** [differenceInDays(dateLeft, dateRight)] counts full days of the local
    calendar, so its value depends on the time zone of the browser: the
    layout code below takes it as a parameter.  In a zone whose offset from
    UTC is fixed every local day has 24 hours and the function is the
    quotient of the millisecond difference, truncated towards zero: *)
Definition differenceInDays_24h (dateLeft dateRight : Z) : Z :=
  Z.quot (dateLeft - dateRight) MS_PER_DAY.

End DateFns.

(** ** JavaScript numbers where the code divides

    [msFromStart / timeRangeMs] is a double.  Finite values are idealised as
    exact rationals; the three non-finite values are kept, because a zero
    divisor produces them. *)

Module JSNum.

Inductive t : Type :=
| Fin (q : Q)
| PosInf
| NegInf
| NaN.

Definition of_Z (z : Z) : t := Fin (inject_Z z).

(** [a / b] for integer-valued operands. *)
Definition div (a b : Z) : t :=
  match b with
  | Z0 => match a with
          | Z0 => NaN
          | Zpos _ => PosInf
          | Zneg _ => NegInf
          end
  | Zpos p => Fin (a # p)
  | Zneg p => Fin ((- a) # p)
  end.

(** [Math.min(x, y)] and [Math.max(x, y)]: NaN is contagious. *)
Definition min (x y : t) : t :=
  match x, y with
  | NaN, _ | _, NaN => NaN
  | NegInf, _ | _, NegInf => NegInf
  | PosInf, z | z, PosInf => z
  | Fin a, Fin b => Fin (Qmin a b)
  end.

Definition max (x y : t) : t :=
  match x, y with
  | NaN, _ | _, NaN => NaN
  | PosInf, _ | _, PosInf => PosInf
  | NegInf, z | z, NegInf => z
  | Fin a, Fin b => Fin (Qmax a b)
  end.

Definition scale_inf (a : Q) (pos : bool) : t :=
  match Qcompare a 0 with
  | Eq => NaN
  | Gt => if pos then PosInf else NegInf
  | Lt => if pos then NegInf else PosInf
  end.

Definition mul (x y : t) : t :=
  match x, y with
  | NaN, _ | _, NaN => NaN
  | Fin a, Fin b => Fin (a * b)
  | Fin a, PosInf | PosInf, Fin a => scale_inf a true
  | Fin a, NegInf | NegInf, Fin a => scale_inf a false
  | PosInf, PosInf | NegInf, NegInf => PosInf
  | PosInf, NegInf | NegInf, PosInf => NegInf
  end.

Definition sub (x y : t) : t :=
  match x, y with
  | NaN, _ | _, NaN => NaN
  | Fin a, Fin b => Fin (a - b)
  | PosInf, PosInf | NegInf, NegInf => NaN
  | PosInf, _ | _, NegInf => PosInf
  | NegInf, _ | _, PosInf => NegInf
  end.

(** [x] is a finite number between [lo] and [hi]. *)
Definition between (lo hi : Z) (x : t) : Prop :=
  match x with
  | Fin q => (inject_Z lo <= q /\ q <= inject_Z hi)%Q
  | _ => False
  end.

(** [x <= y] on finite numbers. *)
Definition le (x y : t) : Prop :=
  match x, y with
  | Fin a, Fin b => (a <= b)%Q
  | _, _ => False
  end.

(** [x] is the finite number [q], up to the representation of fractions. *)
Definition equals (x : t) (q : Q) : Prop :=
  match x with
  | Fin a => (a == q)%Q
  | _ => False
  end.

Definition add (x y : t) : t :=
  match x, y with
  | NaN, _ | _, NaN => NaN
  | Fin a, Fin b => Fin (a + b)
  | PosInf, NegInf | NegInf, PosInf => NaN
  | PosInf, _ | _, PosInf => PosInf
  | NegInf, _ | _, NegInf => NegInf
  end.

End JSNum.

(** ** [Math.max] on integer-valued numbers *)

Definition Math_max (xs : list Z) (x0 : Z) : Z := fold_left Z.max xs x0.

(** ** ScrobbleTimeline.tsx *)

Module PositionedScrobble.
(** [interface PositionedScrobble extends Scrobble { position }] *)
Record t : Type := mk {
  scrobble : Scrobble;
  position : JSNum.t
}.
End PositionedScrobble.

Module TimeMarker.
Record t : Type := mk {
  position : JSNum.t;
  label : string;
  date : Z
}.
End TimeMarker.

Module ScrobbleTimeline.
Import DateFns.

Section WithDateFns.
(** date-fns' [differenceInDays], as the browser's time zone makes it. *)
Variable differenceInDays : Z -> Z -> Z.

Definition MIN_SCROBBLE_WIDTH : Z := 60.
Definition MIN_TIMELINE_WIDTH : Z := 800.

Definition daysInRange (timeRange : TimeRange) : Z :=
  differenceInDays (end_ timeRange) (start timeRange) + 1.

Definition calculateTimelineWidth
    (scrobbles : list Scrobble) (timeRange : TimeRange) : Z :=
  let minWidthForScrobbles :=
    Z.of_nat (List.length scrobbles) * MIN_SCROBBLE_WIDTH in
  let widthBasedOnDays := daysInRange timeRange * 200 in
  Math_max [widthBasedOnDays; MIN_TIMELINE_WIDTH] minWidthForScrobbles.

(** The width as the specification words it:
    [max(n × 60, days × 200, 800)] with
    [days = floor((end − start) in days) + 1]. *)
Definition spec_days_in_range (timeRange : TimeRange) : Z :=
  (end_ timeRange - start timeRange) / MS_PER_DAY + 1.

Definition spec_width (n : Z) (timeRange : TimeRange) : Z :=
  Z.max (n * 60) (Z.max (spec_days_in_range timeRange * 200) 800).

(** [Math.max(0, Math.min(1, msFromStart / timeRangeMs))], the expression
    shared by [positionScrobbles] and [generateTimeMarkers]. *)
Definition positionPercentage (timeRange : TimeRange) (instant : Z) : JSNum.t :=
  let timeRangeMs := differenceInMilliseconds (end_ timeRange) (start timeRange) in
  let msFromStart := differenceInMilliseconds instant (start timeRange) in
  JSNum.max (JSNum.of_Z 0)
            (JSNum.min (JSNum.of_Z 1) (JSNum.div msFromStart timeRangeMs)).

Definition positionScrobbles
    (scrobbles : list Scrobble) (timeRange : TimeRange) (width : Z)
  : list PositionedScrobble.t :=
  if (Z.of_nat (List.length scrobbles) =? 0) then []
  else
    map (fun scrobble =>
           let scrobbleDate := listened_at scrobble in
           let position :=
             JSNum.mul (positionPercentage timeRange scrobbleDate)
                       (JSNum.of_Z width) in
           PositionedScrobble.mk scrobble position)
        scrobbles.

(** *** Time markers *)

Definition intervalHours (daysInRange : Z) : Z :=
  if daysInRange <=? 1 then 1
  else if daysInRange <=? 7 then 6
  else if daysInRange <=? 31 then 24
  else 24 * 7.

Definition formatString (daysInRange : Z) : string :=
  if daysInRange <=? 1 then "h:mm a"%string
  else if daysInRange <=? 7 then "MMM d, h a"%string
  else if daysInRange <=? 31 then "MMM d"%string
  else "MMM d"%string.

Section Markers.
(** date-fns' [format(date, formatString)]; only its result type matters. *)
Variable format : Z -> string -> string.
Variable timeRange : TimeRange.
Variable width : Z.

(** The milliseconds added to [currentDate] at the end of an iteration. *)
Definition intervalMs : Z :=
  intervalHours (daysInRange timeRange) * 60 * 60 * 1000.

(** The object pushed on [markers] when [currentDate] is [instant]. *)
Definition markerAt (instant : Z) : TimeMarker.t :=
  let position :=
    JSNum.mul (positionPercentage timeRange instant) (JSNum.of_Z width) in
  TimeMarker.mk position
                (format instant (formatString (daysInRange timeRange)))
                instant.

(** The variables the [while] loop updates. *)
Record LoopState : Type := mkLoop {
  currentDate : Z;
  markers : list TimeMarker.t
}.

Definition loopCondition (st : LoopState) : bool :=
  currentDate st <=? end_ timeRange.

Definition loopBody (st : LoopState) : LoopState :=
  {| markers := markers st ++ [markerAt (currentDate st)];
     currentDate := currentDate st + intervalMs |}.

(** [while (currentDate <= timeRange.end) { ... }], with a bound on the
    number of iterations: [None] means the bound was reached before the
    condition failed. *)
Fixpoint whileLoop (fuel : nat) (st : LoopState) : option LoopState :=
  if loopCondition st then
    match fuel with
    | O => None
    | S fuel' => whileLoop fuel' (loopBody st)
    end
  else Some st.

Definition generateTimeMarkers (fuel : nat) : option (list TimeMarker.t) :=
  option_map markers
             (whileLoop fuel {| currentDate := start timeRange; markers := [] |}).

(** The markers the specification describes: one at [start + k × interval]
    for [k = 0 .. count − 1]. *)
Fixpoint markersFrom (instant : Z) (count : nat) : list TimeMarker.t :=
  match count with
  | O => []
  | S count' => markerAt instant :: markersFrom (instant + intervalMs) count'
  end.

End Markers.

(** The number of instants [start + k × interval] within a range with
    [start <= end]. *)
Definition markerCount (timeRange : TimeRange) : nat :=
  S (Z.to_nat ((end_ timeRange - start timeRange) / intervalMs timeRange)).

End WithDateFns.

(** *** Scrolling to the selected scrobble

    [scrollToScrobble] has one effect, the [scrollTo] call; the result is
    the [left] it is called with, or [None] when it returns without
    scrolling.  [timelineElement] is the element's [clientWidth] when the
    ref is attached. *)
Definition scrollToScrobble
    (timelineElement : option Z)
    (positionedScrobbles : list PositionedScrobble.t)
    (scrobble : Scrobble) : option JSNum.t :=
  match timelineElement with
  | None => None
  | Some clientWidth =>
      match find (fun s => id (PositionedScrobble.scrobble s) =? id scrobble)
                 positionedScrobbles with
      | None => None
      | Some positioned =>
          let scrollPosition :=
            JSNum.sub (PositionedScrobble.position positioned)
                      (JSNum.div clientWidth 2) in
          Some (JSNum.max (JSNum.of_Z 0) scrollPosition)
      end
  end.

(** The effect [if (selectedScrobble) scrollToScrobble(selectedScrobble)]. *)
Definition scrollEffect
    (timelineElement : option Z)
    (positionedScrobbles : list PositionedScrobble.t)
    (selectedScrobble : option Scrobble) : option JSNum.t :=
  match selectedScrobble with
  | Some scrobble => scrollToScrobble timelineElement positionedScrobbles scrobble
  | None => None
  end.

End ScrobbleTimeline.

(** ** MUIScrobbleTimeline.tsx: pagination *)

Module MUIScrobbleTimeline.

Definition itemsPerPage : Z := 25.

(** [Math.ceil(a / b)] for a length [a] and a positive constant [b]: the
    quotient is a rational, then rounded up. *)
Definition Math_ceil_div (a : Z) (b : positive) : Z := Qceiling (a # b).

Definition totalPages (scrobbles : list Scrobble) : Z :=
  Math_ceil_div (Z.of_nat (List.length scrobbles)) (Z.to_pos itemsPerPage).

(** [totalPages] as the specification words it: [max(1, ceil(n / 25))]. *)
Definition spec_totalPages (n : Z) : Z := Z.max 1 (- ((- n) / 25)).

(** The pagination handlers.  Each is the new value given to
    [setCurrentPage]; [prev] is the page before the call. *)
Definition goToFirstPage : Z := 1.
Definition goToPreviousPage (prev : Z) : Z := Z.max (prev - 1) 1.
Definition goToNextPage (totalPages prev : Z) : Z := Z.min (prev + 1) totalPages.
Definition goToLastPage (totalPages : Z) : Z := totalPages.
Definition goToPage (page : Z) : Z := page.

(** The page input.  [value] is [parseInt(e.target.value)], [None] for NaN;
    the result is the current page after the handler ran. *)
Definition onChange (totalPages : Z) (value : option Z) (currentPage : Z) : Z :=
  match value with
  | Some v => if (1 <=? v) && (v <=? totalPages) then goToPage v else currentPage
  | None => currentPage
  end.

Definition onBlur (totalPages : Z) (value : option Z) (currentPage : Z) : Z :=
  match value with
  | None => goToPage 1
  | Some v =>
      if v <? 1 then goToPage 1
      else if totalPages <? v then goToPage totalPages
      else currentPage
  end.

(** What the user can do with the pagination controls. *)
Inductive Navigation : Type :=
| First
| Previous
| Next
| Last
| InputChange (value : option Z)
| InputBlur (value : option Z).

Definition navigate (totalPages : Z) (nav : Navigation) (currentPage : Z) : Z :=
  match nav with
  | First => goToFirstPage
  | Previous => goToPreviousPage currentPage
  | Next => goToNextPage totalPages currentPage
  | Last => goToLastPage totalPages
  | InputChange value => onChange totalPages value currentPage
  | InputBlur value => onBlur totalPages value currentPage
  end.

(** The clamp the specification attributes to [goto(p)]. *)
Definition spec_goto (totalPages p : Z) : Z := Z.max 1 (Z.min p totalPages).

(** [Array.prototype.slice(start, end)]: a negative index counts from the
    end of the array, and both indexes are clamped to the array. *)
Definition Array_slice {A : Type} (l : list A) (start_ end_ : Z) : list A :=
  let len := Z.of_nat (List.length l) in
  let k := if start_ <? 0 then Z.max (len + start_) 0 else Z.min start_ len in
  let final := if end_ <? 0 then Z.max (len + end_) 0 else Z.min end_ len in
  firstn (Z.to_nat (final - k)) (skipn (Z.to_nat k) l).

(** The items of the current page. *)
Definition currentItems (scrobbles : list Scrobble) (currentPage : Z) : list Scrobble :=
  let indexOfLastItem := currentPage * itemsPerPage in
  let indexOfFirstItem := indexOfLastItem - itemsPerPage in
  Array_slice scrobbles indexOfFirstItem indexOfLastItem.

(** The page numbers [1 .. totalPages]. *)
Definition pageNumbers (scrobbles : list Scrobble) : list Z :=
  map (fun k => Z.of_nat k + 1) (seq 0 (Z.to_nat (totalPages scrobbles))).

End MUIScrobbleTimeline.

(** ** useScrobbleTimeline.ts *)

Module UseScrobbleTimeline.

(** *** Sorting and de-duplicating a response *)

(** The comparator given to [sort]:
    [new Date(b.listened_at).getTime() - new Date(a.listened_at).getTime()]. *)
Definition compareFn (a b : Scrobble) : Z := listened_at b - listened_at a.

(** [Array.prototype.sort] is stable: elements the comparator does not
    order keep their relative order.  That arrangement is unique, and is
    computed here by insertion. *)
Fixpoint insert (x : Scrobble) (l : list Scrobble) : list Scrobble :=
  match l with
  | [] => [x]
  | y :: l' => if compareFn x y <=? 0 then x :: y :: l' else y :: insert x l'
  end.

Fixpoint sort (l : list Scrobble) : list Scrobble :=
  match l with
  | [] => []
  | x :: l' => insert x (sort l')
  end.

(** Newest first: [a] may precede [b]. *)
Definition newerFirst (a b : Scrobble) : Prop := listened_at b <= listened_at a.

(** [self.findIndex(p)]: the first index whose element satisfies [p], or -1. *)
Fixpoint findIndexFrom {A : Type} (p : A -> bool) (l : list A) (i : Z) : Z :=
  match l with
  | [] => -1
  | x :: l' => if p x then i else findIndexFrom p l' (i + 1)
  end.

Definition findIndex {A : Type} (p : A -> bool) (self : list A) : Z :=
  findIndexFrom p self 0.

(** [l.filter((element, index) => p(element, index))], with [i] the index of
    the head of [l]. *)
Fixpoint filterFrom {A : Type} (p : A -> Z -> bool) (l : list A) (i : Z) : list A :=
  match l with
  | [] => []
  | x :: l' =>
      if p x i then x :: filterFrom p l' (i + 1) else filterFrom p l' (i + 1)
  end.

Definition isFirstWithId (self : list Scrobble) (scrobble : Scrobble) (index : Z) : bool :=
  index =? findIndex (fun s => id s =? id scrobble) self.

Definition uniqueScrobbles (sortedScrobbles : list Scrobble) : list Scrobble :=
  filterFrom (isFirstWithId sortedScrobbles) sortedScrobbles 0.

(** *** The hook's state *)

Record State : Type := mkState {
  timeRange : TimeRange;
  loading : bool;
  error : option string;
  scrobbles : list Scrobble;
  selectedScrobble : option Scrobble;
  hoveredScrobble : option Scrobble
}.

Definition initialState (initialTimeRange : TimeRange) : State :=
  {| timeRange := initialTimeRange;
     loading := false;
     error := None;
     scrobbles := [];
     selectedScrobble := None;
     hoveredScrobble := None |}.

Definition setTimeRange (range : TimeRange) (st : State) : State :=
  {| timeRange := range; loading := loading st; error := error st;
     scrobbles := scrobbles st; selectedScrobble := selectedScrobble st;
     hoveredScrobble := hoveredScrobble st |}.

Definition setLoading (b : bool) (st : State) : State :=
  {| timeRange := timeRange st; loading := b; error := error st;
     scrobbles := scrobbles st; selectedScrobble := selectedScrobble st;
     hoveredScrobble := hoveredScrobble st |}.

Definition setError (e : option string) (st : State) : State :=
  {| timeRange := timeRange st; loading := loading st; error := e;
     scrobbles := scrobbles st; selectedScrobble := selectedScrobble st;
     hoveredScrobble := hoveredScrobble st |}.

Definition setScrobbles (l : list Scrobble) (st : State) : State :=
  {| timeRange := timeRange st; loading := loading st; error := error st;
     scrobbles := l; selectedScrobble := selectedScrobble st;
     hoveredScrobble := hoveredScrobble st |}.

Definition setSelectedScrobble (s : option Scrobble) (st : State) : State :=
  {| timeRange := timeRange st; loading := loading st; error := error st;
     scrobbles := scrobbles st; selectedScrobble := s;
     hoveredScrobble := hoveredScrobble st |}.

Definition setHoveredScrobble (s : option Scrobble) (st : State) : State :=
  {| timeRange := timeRange st; loading := loading st; error := error st;
     scrobbles := scrobbles st; selectedScrobble := selectedScrobble st;
     hoveredScrobble := s |}.

(** *** What the awaited API calls can do *)

(** A thrown value: an [Error] with its message, or anything else. *)
Inductive Thrown : Type :=
| ErrorObject (message : string)
| OtherValue.

Inductive Settled (A : Type) : Type :=
| Fulfilled (value : A)
| Rejected (reason : Thrown).
Arguments Fulfilled {A} value.
Arguments Rejected {A} reason.

(** The outcomes of the three calls one run of [fetchScrobbles] awaits:
    [scrobblesApi.fetchScrobbles], [userApi.getUserByLastfm] (its [data],
    the user's id, may be missing) and [scrobblesApi.getScrobbles] (its
    [data.scrobbles]). *)
Record Replies : Type := mkReplies {
  fetchResponse : Settled unit;
  userResponse : Settled (option Z);
  response : Settled (list Scrobble)
}.

Definition bind {A B : Type} (m : Settled A) (k : A -> Settled B) : Settled B :=
  match m with
  | Fulfilled a => k a
  | Rejected e => Rejected e
  end.

Notation "x <- m ;; k" := (bind m (fun x => k))
  (at level 61, m at next level, right associativity).

(** The body of the [try] block: the list handed to [setScrobbles], or the
    value that reaches [catch]. *)
Definition tryBlock (username : string) (replies : Replies) : Settled (list Scrobble) :=
  _ <- fetchResponse replies ;;
  data <- userResponse replies ;;
  match data with
  | None =>
      Rejected (ErrorObject
                  (String.append "User " (String.append username " not found")))
  | Some userId =>
      scrobbles <- response replies ;;
      let sortedScrobbles := sort scrobbles in
      Fulfilled (uniqueScrobbles sortedScrobbles)
  end.

(** [err instanceof Error ? err.message : 'An unknown error occurred'] *)
Definition errorMessage (err : Thrown) : string :=
  match err with
  | ErrorObject message => message
  | OtherValue => "An unknown error occurred"%string
  end.

Definition isEmpty (s : string) : bool :=
  match s with
  | EmptyString => true
  | _ => false
  end.

(** [fetchScrobbles] up to its first [await]. *)
Definition fetchScrobbles_begin (username : string) (st : State) : State :=
  if isEmpty username then st
  else setError None (setLoading true st).

(** [fetchScrobbles] from the point where its awaited calls have settled:
    [setScrobbles] or [catch], then [finally]. *)
Definition fetchScrobbles_settle
    (username : string) (replies : Replies) (st : State) : State :=
  match tryBlock username replies with
  | Fulfilled uniqueScrobbles => setLoading false (setScrobbles uniqueScrobbles st)
  | Rejected err => setLoading false (setError (Some (errorMessage err)) st)
  end.

(** A response whose three calls succeed, with the given scrobbles. *)
Definition fulfilledWith (l : list Scrobble) : Replies :=
  {| fetchResponse := Fulfilled tt;
     userResponse := Fulfilled (Some 42);
     response := Fulfilled l |}.

(** *** The hook as a transition system

    Besides its React state the hook has fetches in flight; each was started
    by the effect for some range, which its closure holds. *)
Record Hook : Type := mkHook {
  state : State;
  inflight : list TimeRange
}.

Inductive Event : Type :=
| RangeChanged (range : TimeRange)
| FetchSettled (range : TimeRange) (replies : Replies)
| Selected (s : option Scrobble)
| Hovered (s : option Scrobble).

Definition rangeEqb (a b : TimeRange) : bool :=
  (start a =? start b) && (end_ a =? end_ b).

Fixpoint removeFirst (r : TimeRange) (l : list TimeRange) : option (list TimeRange) :=
  match l with
  | [] => None
  | r' :: l' =>
      if rangeEqb r r' then Some l'
      else option_map (cons r') (removeFirst r l')
  end.

(** The effect [useEffect(() => { fetchData() }, [fetchScrobbles])]: it runs
    after mount and after every change of [username] or [timeRange]. *)
Definition runFetchEffect (username : string) (h : Hook) : Hook :=
  {| state := fetchScrobbles_begin username (state h);
     inflight := if isEmpty username then inflight h
                 else inflight h ++ [timeRange (state h)] |}.

Definition mount (username : string) (initialTimeRange : TimeRange) : Hook :=
  runFetchEffect username
                 {| state := initialState initialTimeRange; inflight := [] |}.

(** One event; [None] when a fetch is reported settled that is not in
    flight. *)
Definition step (username : string) (h : Hook) (ev : Event) : option Hook :=
  match ev with
  | RangeChanged range =>
      Some (runFetchEffect username
              {| state := setTimeRange range (state h); inflight := inflight h |})
  | FetchSettled range replies =>
      match removeFirst range (inflight h) with
      | None => None
      | Some rest =>
          Some {| state := fetchScrobbles_settle username replies (state h);
                  inflight := rest |}
      end
  | Selected s =>
      Some {| state := setSelectedScrobble s (state h); inflight := inflight h |}
  | Hovered s =>
      Some {| state := setHoveredScrobble s (state h); inflight := inflight h |}
  end.

Fixpoint run (username : string) (h : Hook) (evs : list Event) : option Hook :=
  match evs with
  | [] => Some h
  | ev :: evs' =>
      match step username h ev with
      | None => None
      | Some h' => run username h' evs'
      end
  end.

(** The list the most recently settled successful fetch hands to
    [setScrobbles], [shown] if there is none. *)
Fixpoint lastFulfilled
    (username : string) (shown : list Scrobble) (evs : list Event) : list Scrobble :=
  match evs with
  | [] => shown
  | FetchSettled _ replies :: evs' =>
      match tryBlock username replies with
      | Fulfilled l => lastFulfilled username l evs'
      | Rejected _ => lastFulfilled username shown evs'
      end
  | _ :: evs' => lastFulfilled username shown evs'
  end.

End UseScrobbleTimeline.

(** ** ScrobbleTimelineView.tsx: what is rendered *)

Module ScrobbleTimelineView.
Import UseScrobbleTimeline.

(** The blocks below the range selector. *)
Inductive Panel : Type :=
| LoadingPanel
| ErrorPanel (message : string)
| TimelinePanel (scrobbles : list Scrobble)
| EmptyPanel.

(** Truthiness of [error : string | null]: [null] and the empty string are
    falsy. *)
Definition truthy (error : option string) : bool :=
  match error with
  | Some message => negb (isEmpty message)
  | None => false
  end.

(** The four conditional blocks of the component, in the order of the JSX. *)
Definition render (st : State) : list Panel :=
  (if loading st then [LoadingPanel] else [])
  ++ (match error st with
      | Some message =>
          if truthy (error st) && negb (loading st) then [ErrorPanel message] else []
      | None => []
      end)
  ++ (if negb (loading st) && negb (truthy (error st))
         && (0 <? Z.of_nat (List.length (scrobbles st)))
      then [TimelinePanel (scrobbles st)] else [])
  ++ (if negb (loading st) && negb (truthy (error st))
         && (Z.of_nat (List.length (scrobbles st)) =? 0)
      then [EmptyPanel] else []).



End ScrobbleTimelineView.

(** ** MUITimeRangeSelector.tsx: presets and date pickers *)

Module MUITimeRangeSelector.
Import DateFns.

Section LocalTime.
(** Local time is UTC plus a fixed offset [tz] (milliseconds): a zone
    without clock changes, where [differenceInDays] is
    [differenceInDays_24h]. *)
Variable tz : Z.

(** [d.setHours(0, 0, 0, 0)]: the start of the local day of [d]. *)
Definition setHours_0_0_0_0 (d : Z) : Z :=
  (d + tz) / MS_PER_DAY * MS_PER_DAY - tz.

(** [d.setHours(23, 59, 59, 999)]: the last millisecond of the local day. *)
Definition setHours_23_59_59_999 (d : Z) : Z :=
  setHours_0_0_0_0 d + MS_PER_DAY - 1.

(** [d.setDate(d.getDate() - days)]: the same local time, [days] days
    earlier. *)
Definition setDate_back (days d : Z) : Z := d - days * MS_PER_DAY.

(** The range [handleRangeClick(days)] passes to [onRangeChange]; [now] is
    the value of [new Date()], the same for both endpoints. *)
Definition handleRangeClick (now days : Z) : TimeRange :=
  let end' := setHours_23_59_59_999 now in
  let start' := setHours_0_0_0_0 (setDate_back days now) in
  {| start := start'; end_ := end' |}.

(** The range the start picker passes to [onRangeChange], if it does;
    [date] is [None] for a cleared picker. *)
Definition handleStartDateChange
    (currentRange : TimeRange) (date : option Z) : option TimeRange :=
  match date with
  | None => None
  | Some date =>
      let start' := setHours_0_0_0_0 date in
      let end' := end_ currentRange in
      if start' <=? end' then Some {| start := start'; end_ := end' |} else None
  end.

Definition handleEndDateChange
    (currentRange : TimeRange) (date : option Z) : option TimeRange :=
  match date with
  | None => None
  | Some date =>
      let end' := setHours_23_59_59_999 date in
      let start' := start currentRange in
      if start' <=? end' then Some {| start := start'; end_ := end' |} else None
  end.


(** The current range after a use of the selector: the range passed to
    [onRangeChange], or the old one when the handler does not call it. *)
Inductive Action : Type :=
| ClickPreset (now days : Z)
| PickStart (date : option Z)
| PickEnd (date : option Z).

Definition apply (currentRange : TimeRange) (a : Action) : TimeRange :=
  match a with
  | ClickPreset now days => handleRangeClick now days
  | PickStart date =>
      match handleStartDateChange currentRange date with
      | Some range => range
      | None => currentRange
      end
  | PickEnd date =>
      match handleEndDateChange currentRange date with
      | Some range => range
      | None => currentRange
      end
  end.

End LocalTime.

(** The presets offered: [timeRanges]. *)
Definition timeRanges : list Z := [7; 30; 90; 365].

End MUITimeRangeSelector.

(** ** ScrobbleList.tsx: scrolling the table *)

Module ScrobbleList.
Import UseScrobbleTimeline.

(** The [tr] elements below the list container, in document order: the
    header row of [thead], then one row per scrobble; none when the list is
    empty and the table is not rendered. *)
Inductive Row : Type :=
| HeaderRow
| ScrobbleRow (scrobble : Scrobble).

Definition querySelectorAll_tr (scrobbles : list Scrobble) : list Row :=
  if 0 <? Z.of_nat (List.length scrobbles)
  then HeaderRow :: map ScrobbleRow scrobbles
  else [].

(** The row [scrollIntoView] is called on, if any; [listRef] tells whether
    the ref is attached. *)
Definition scrollToScrobble
    (listRef : bool) (scrobbles : list Scrobble) (scrobble : Scrobble) : option Row :=
  if negb listRef then None
  else
    let index := findIndex (fun s => id s =? id scrobble) scrobbles in
    if index =? -1 then None
    else
      let rows := querySelectorAll_tr scrobbles in
      if Z.of_nat (List.length rows) <=? index then None
      else nth_error rows (Z.to_nat index).

End ScrobbleList.

(** ** ListeningActivityHeatmap.tsx: colour and size of the points *)

Module ListeningActivityHeatmap.

Record ListeningActivity : Type := mkActivity {
  date : Z;                 (* the instant [new Date(activity.date)] denotes *)
  track_count : Z
}.

(** A point of the scatter chart.  [color] is the string
    [hsla(<hue>, 100%, 50%, 0.7)], of which the record keeps the [hue];
    [label] is the point's formatted [date]. *)
Record DataPoint : Type := mkPoint {
  x : Z;
  y : Z;
  r : JSNum.t;
  trackCount : Z;
  hue : JSNum.t;
  label : string
}.

(** [Math.max(...activities.map(a => a.track_count))].  It is evaluated for
    each element of [activities], hence on a non-empty list only. *)
Definition maxTrackCount (activities : list ListeningActivity) : Z :=
  match map track_count activities with
  | [] => 0
  | c :: cs => Math_max cs c
  end.

Section DataPoints.
(** date-fns' [format]. *)
Variable format : Z -> string -> string.

Definition dataPoint
    (activities : list ListeningActivity) (activity : ListeningActivity) : DataPoint :=
  let normalizedCount := JSNum.div (track_count activity) (maxTrackCount activities) in
  let hue' :=
    JSNum.max (JSNum.of_Z 0)
      (JSNum.min (JSNum.of_Z 240)
         (JSNum.mul (JSNum.of_Z 240) (JSNum.sub (JSNum.of_Z 1) normalizedCount))) in
  {| x := date activity;
     y := 1;
     r := JSNum.max (JSNum.of_Z 5)
            (JSNum.min (JSNum.of_Z 20)
               (JSNum.add (JSNum.of_Z 5)
                          (JSNum.mul (JSNum.of_Z 15) normalizedCount)));
     trackCount := track_count activity;
     hue := hue';
     label := format (date activity) "MMM d, yyyy" |}.

Definition dataPoints (activities : list ListeningActivity) : list DataPoint :=
  map (dataPoint activities) activities.

End DataPoints.

End ListeningActivityHeatmap.

(** * Theorems *)

(** ** Layout: width, positions, markers *)

Module ScrobbleTimelineFacts.
Import DateFns ScrobbleTimeline.

Lemma quot_div_agree_or_small (a b : Z) :
  0 < b -> Z.quot a b = a / b \/ (a / b < 0 /\ Z.quot a b <= 0).
Proof.
  intros Hb.
  destruct (Z_le_gt_dec 0 a) as [Ha | Ha].
  - left. apply Z.quot_div_nonneg; lia.
  - right. split.
    + apply Z.div_lt_upper_bound; lia.
    + apply Z.quot_le_upper_bound; lia.
Qed.

Lemma calculateTimelineWidth_unfold differenceInDays scrobbles timeRange :
  calculateTimelineWidth differenceInDays scrobbles timeRange
  = Z.max (Z.of_nat (List.length scrobbles) * 60)
          (Z.max (daysInRange differenceInDays timeRange * 200) 800).
Proof.
  unfold calculateTimelineWidth, Math_max, MIN_SCROBBLE_WIDTH, MIN_TIMELINE_WIDTH.
  cbn [fold_left]. lia.
Qed.

(** C1.  For every event list and every time range the computed width is
    [max(n × 60, days × 200, 800)], where [days] is the whole-day
    difference between end and start, as [differenceInDays] counts it in
    the browser's time zone, plus one; the width is never below 800.
    Wherever that count is the truncated quotient of the millisecond
    difference by 24 hours (as in every zone with a fixed offset), the
    width is also the one of the floor-based wording of the
    specification. *)
Theorem calculateTimelineWidth_is_max3 :
  forall (differenceInDays : Z -> Z -> Z)
         (scrobbles : list Scrobble) (timeRange : TimeRange),
    let n := Z.of_nat (List.length scrobbles) in
    let days := differenceInDays (end_ timeRange) (start timeRange) + 1 in
    let width := calculateTimelineWidth differenceInDays scrobbles timeRange in
    width = Z.max (n * 60) (Z.max (days * 200) 800)
    /\ 800 <= width
    /\ (differenceInDays (end_ timeRange) (start timeRange)
        = Z.quot (end_ timeRange - start timeRange) MS_PER_DAY ->
        width = spec_width n timeRange).
Proof.
  intros differenceInDays scrobbles timeRange n days width. subst width.
  rewrite calculateTimelineWidth_unfold. fold n.
  unfold daysInRange. fold days.
  split; [reflexivity | split; [lia | ]].
  intros H24. unfold spec_width, spec_days_in_range. subst days. rewrite H24.
  destruct (quot_div_agree_or_small
              (end_ timeRange - start timeRange) MS_PER_DAY)
    as [-> | [Hneg Hq]]; [reflexivity | reflexivity | lia].
Qed.

Lemma calculateTimelineWidth_is_max3_witness :
  let timeRange := {| start := 0; end_ := 7 * 86400000 - 1 |} in
  let scrobbles := repeat (sampleScrobble 1 0) 10 in
  calculateTimelineWidth differenceInDays_24h scrobbles timeRange = 1400
  /\ calculateTimelineWidth differenceInDays_24h scrobbles timeRange
     = spec_width 10 timeRange.
Proof.
  intros timeRange scrobbles.
  destruct (calculateTimelineWidth_is_max3 differenceInDays_24h scrobbles timeRange)
    as [Hmax [_ Hspec]].
  split.
  - rewrite Hmax. reflexivity.
  - apply Hspec. reflexivity.
Defined.

(** *** Positions *)

Lemma Qmax0_min1_unit (x : Q) :
  (0 <= Qmax 0 (Qmin 1 x) /\ Qmax 0 (Qmin 1 x) <= 1)%Q.
Proof.
  split.
  - apply Q.le_max_l.
  - apply Q.max_lub; [discriminate | apply Q.le_min_l].
Qed.

(** With a positive span the percentage is a finite number in [0, 1]. *)
Lemma positionPercentage_unit timeRange instant :
  start timeRange < end_ timeRange ->
  exists q, positionPercentage timeRange instant = JSNum.Fin q
            /\ (0 <= q /\ q <= 1)%Q.
Proof.
  intros Hlt. unfold positionPercentage, differenceInMilliseconds.
  destruct (end_ timeRange - start timeRange) as [ | p | p] eqn:Hspan; try lia.
  cbn [JSNum.div JSNum.min JSNum.max JSNum.of_Z].
  eexists. split; [reflexivity | ].
  apply Qmax0_min1_unit.
Qed.

(** With a positive span every offset lies in [0, width]. *)
Lemma positionScrobbles_between scrobbles timeRange width :
  start timeRange < end_ timeRange -> 0 <= width ->
  Forall (fun p => JSNum.between 0 width (PositionedScrobble.position p))
         (positionScrobbles scrobbles timeRange width).
Proof.
  intros Hlt Hw. unfold positionScrobbles.
  destruct (Z.of_nat (List.length scrobbles) =? 0); [constructor | ].
  apply Forall_forall. intros p Hin.
  apply in_map_iff in Hin. destruct Hin as [s [<- _]].
  cbn [PositionedScrobble.position].
  destruct (positionPercentage_unit timeRange (listened_at s) Hlt)
    as [q [-> [Hq0 Hq1]]].
  cbn [JSNum.mul JSNum.of_Z JSNum.between].
  assert (Hw' : (0 <= inject_Z width)%Q)
    by (change 0%Q with (inject_Z 0); rewrite <- Zle_Qle; exact Hw).
  split.
  - change (inject_Z 0) with 0%Q. apply Qmult_le_0_compat; assumption.
  - rewrite <- (Qmult_1_l (inject_Z width)) at 2.
    apply Qmult_le_compat_r; assumption.
Qed.

(** With an empty span the quotient has a zero divisor: the percentage of an
    instant is NaN at [start], 1 after it and 0 before it. *)
Lemma positionPercentage_empty_span timeRange instant :
  end_ timeRange = start timeRange ->
  positionPercentage timeRange instant
  = match instant ?= start timeRange with
    | Eq => JSNum.NaN
    | Gt => JSNum.of_Z 1
    | Lt => JSNum.of_Z 0
    end.
Proof.
  intros Heq. unfold positionPercentage, differenceInMilliseconds.
  rewrite Heq, Z.sub_diag.
  destruct (Z.compare_spec instant (start timeRange)) as [H | H | H].
  - subst instant. rewrite Z.sub_diag. reflexivity.
  - destruct (instant - start timeRange) eqn:Hd; try lia. reflexivity.
  - destruct (instant - start timeRange) eqn:Hd; try lia. reflexivity.
Qed.

(** C2.  The code at a zero-length range: the event at [start] gets the
    offset NaN and the event after [start] gets the full width 800; only
    the event before [start] gets 0. *)
Theorem positionScrobbles_zero_length_range :
  let timeRange := {| start := 1000; end_ := 1000 |} in
  let scrobbles := [sampleScrobble 1 1000; sampleScrobble 2 4000;
                    sampleScrobble 3 500] in
  let width := calculateTimelineWidth differenceInDays_24h scrobbles timeRange in
  width = 800
  /\ map PositionedScrobble.position (positionScrobbles scrobbles timeRange width)
     = [JSNum.NaN; JSNum.Fin 800; JSNum.Fin 0].
Proof. split; reflexivity. Qed.

(** *** Markers *)

Lemma intervalHours_cases (days : Z) :
  (days <= 1 -> intervalHours days = 1)
  /\ (1 < days <= 7 -> intervalHours days = 6)
  /\ (7 < days <= 31 -> intervalHours days = 24)
  /\ (31 < days -> intervalHours days = 168).
Proof.
  unfold intervalHours.
  destruct (Z.leb_spec days 1), (Z.leb_spec days 7), (Z.leb_spec days 31);
    repeat split; intros; try lia; reflexivity.
Qed.

Lemma intervalHours_values (days : Z) :
  intervalHours days = 1 \/ intervalHours days = 6
  \/ intervalHours days = 24 \/ intervalHours days = 168.
Proof.
  unfold intervalHours.
  destruct (days <=? 1); [auto | ].
  destruct (days <=? 7); [auto | ].
  destruct (days <=? 31); auto.
Qed.

Lemma intervalMs_pos differenceInDays timeRange :
  0 < intervalMs differenceInDays timeRange.
Proof.
  unfold intervalMs.
  destruct (intervalHours_values (daysInRange differenceInDays timeRange)) as [-> | [-> | [-> | ->]]];
    lia.
Qed.

Section Loop.
Variable differenceInDays : Z -> Z -> Z.
Variable format : Z -> string -> string.
Variable timeRange : TimeRange.
Variable width : Z.

Let step := intervalMs differenceInDays timeRange.

Lemma whileLoop_exit fuel st :
  loopCondition timeRange st = false ->
  whileLoop differenceInDays format timeRange width fuel st = Some st.
Proof. intros H. destruct fuel; cbn [whileLoop]; rewrite H; reflexivity. Qed.

(** [n] more iterations are due when the instants [c], [c + step], ... up
    to the [n]-th are within the range and the next one is not. *)
Lemma whileLoop_iterations :
  forall (n fuel : nat) (c : Z) (ms : list TimeMarker.t),
    (n <= fuel)%nat ->
    ((0 < n)%nat -> c + (Z.of_nat n - 1) * step <= end_ timeRange) ->
    end_ timeRange < c + Z.of_nat n * step ->
    whileLoop differenceInDays format timeRange width fuel {| currentDate := c; markers := ms |}
    = Some {| currentDate := c + Z.of_nat n * step;
              markers := ms ++ markersFrom differenceInDays format timeRange width c n |}.
Proof.
  pose proof (intervalMs_pos differenceInDays timeRange) as Hstep. fold step in Hstep.
  induction n as [ | n IH]; intros fuel c ms Hfuel Hin Hout.
  - rewrite whileLoop_exit.
    + cbn [markersFrom]. rewrite app_nil_r. do 2 f_equal. lia.
    + unfold loopCondition. cbn [currentDate]. apply Z.leb_gt. lia.
  - destruct fuel as [ | fuel]; [lia | ].
    assert (Hc : c <= end_ timeRange) by nia.
    cbn [whileLoop]. unfold loopCondition at 1. cbn [currentDate].
    apply Z.leb_le in Hc. rewrite Hc. apply Z.leb_le in Hc.
    unfold loopBody. cbn [currentDate markers]. fold step.
    rewrite (IH fuel (c + step) (ms ++ [markerAt differenceInDays format timeRange width c])).
    + cbn [markersFrom]. fold step. rewrite <- app_assoc. cbn [app].
      do 2 f_equal. lia.
    + lia.
    + intros Hn. nia.
    + nia.
Qed.

Lemma markersFrom_dates (n : nat) (c : Z) :
  map TimeMarker.date (markersFrom differenceInDays format timeRange width c n)
  = map (fun k => c + Z.of_nat k * step) (seq 0 n).
Proof.
  revert c. induction n as [ | n IH]; intros c; [reflexivity | ].
  cbn [markersFrom map seq]. fold step. rewrite IH.
  f_equal; [cbn; lia | ].
  rewrite <- seq_shift, map_map.
  apply map_ext. intros k. lia.
Qed.

Lemma markersFrom_length (n : nat) (c : Z) :
  List.length (markersFrom differenceInDays format timeRange width c n) = n.
Proof.
  revert c. induction n as [ | n IH]; intros c; [reflexivity | ].
  cbn [markersFrom List.length]. now rewrite IH.
Qed.

Lemma generateTimeMarkers_run fuel :
  start timeRange <= end_ timeRange ->
  (markerCount differenceInDays timeRange <= fuel)%nat ->
  whileLoop differenceInDays format timeRange width fuel
            {| currentDate := start timeRange; markers := [] |}
  = Some {| currentDate := start timeRange + Z.of_nat (markerCount differenceInDays timeRange) * step;
            markers := markersFrom differenceInDays format timeRange width (start timeRange)
                                   (markerCount differenceInDays timeRange) |}.
Proof.
  intros Hle Hfuel.
  pose proof (intervalMs_pos differenceInDays timeRange) as Hstep. fold step in Hstep.
  set (d := end_ timeRange - start timeRange).
  assert (Hd : 0 <= d) by (subst d; lia).
  assert (Hq : 0 <= d / step) by (apply Z.div_pos; lia).
  pose proof (Z.div_mod d step ltac:(lia)) as Hdm.
  pose proof (Z.mod_pos_bound d step Hstep) as Hmod.
  assert (Hcount : Z.of_nat (markerCount differenceInDays timeRange) = d / step + 1).
  { unfold markerCount. fold d step. rewrite Nat2Z.inj_succ, Z2Nat.id; lia. }
  rewrite (whileLoop_iterations (markerCount differenceInDays timeRange) fuel (start timeRange) []);
    try assumption.
  - reflexivity.
  - intros _. rewrite Hcount. subst d. nia.
  - rewrite Hcount. subst d. nia.
Qed.

End Loop.

(** C3.  For a range with [start <= end], let [days] be the whole days
    between end and start, as [differenceInDays] counts them, plus one.  The
    interval the loop steps by is given by the first matching row of the
    table (at most 1 day: 1 hour; at most 7: 6 hours; at most 31: 24 hours;
    otherwise 7 days), and the markers produced are exactly those at
    [start + k × interval], [k = 0, 1, 2, ...], whose instant is not past
    [end]. *)
Theorem generateTimeMarkers_steps_within_range :
  forall (differenceInDays : Z -> Z -> Z)
         (format : Z -> string -> string) (timeRange : TimeRange) (width : Z),
    start timeRange <= end_ timeRange ->
    let days := differenceInDays (end_ timeRange) (start timeRange) + 1 in
    exists hours : Z,
      ((days <= 1 /\ hours = 1)
       \/ (1 < days <= 7 /\ hours = 6)
       \/ (7 < days <= 31 /\ hours = 24)
       \/ (31 < days /\ hours = 24 * 7))
      /\ let interval := hours * 60 * 60 * 1000 in
         let count := S (Z.to_nat ((end_ timeRange - start timeRange) / interval)) in
         intervalMs differenceInDays timeRange = interval
         /\ exists markers,
             (forall fuel, (count <= fuel)%nat ->
                generateTimeMarkers differenceInDays format timeRange width fuel
                = Some markers)
             /\ map TimeMarker.date markers
                = map (fun k => start timeRange + Z.of_nat k * interval)
                      (seq 0 count)
             /\ (forall t, In t (map TimeMarker.date markers)
                           <-> exists k, 0 <= k
                                         /\ t = start timeRange + k * interval
                                         /\ t <= end_ timeRange).
Proof.
  intros differenceInDays format timeRange width Hle days.
  exists (intervalHours days). split.
  { destruct (intervalHours_cases days) as [H1 [H7 [H31 Hw]]].
    destruct (Z_le_gt_dec days 1); [left; split; [lia | apply H1; lia] | ].
    destruct (Z_le_gt_dec days 7);
      [right; left; split; [lia | apply H7; lia] | ].
    destruct (Z_le_gt_dec days 31);
      [right; right; left; split; [lia | apply H31; lia] | ].
    right; right; right. split; [lia | apply Hw; lia]. }
  intros interval count.
  assert (Hint : intervalMs differenceInDays timeRange = interval) by reflexivity.
  split; [exact Hint | ].
  pose proof (intervalMs_pos differenceInDays timeRange) as Hstep.
  rewrite Hint in Hstep.
  assert (Hcount : markerCount differenceInDays timeRange = count)
    by (unfold markerCount; rewrite Hint; reflexivity).
  exists (markersFrom differenceInDays format timeRange width (start timeRange) count).
  assert (Hdates :
            map TimeMarker.date
                (markersFrom differenceInDays format timeRange width
                             (start timeRange) count)
            = map (fun k => start timeRange + Z.of_nat k * interval) (seq 0 count))
    by (rewrite markersFrom_dates, Hint; reflexivity).
  split; [ | split; [exact Hdates | ]].
  - intros fuel Hfuel. unfold generateTimeMarkers. rewrite <- Hcount in Hfuel.
    rewrite (generateTimeMarkers_run differenceInDays format timeRange width
               fuel Hle Hfuel).
    cbn [option_map markers]. now rewrite Hcount.
  - intros t. rewrite Hdates, in_map_iff.
    set (d := end_ timeRange - start timeRange).
    assert (Hq : 0 <= d / interval) by (apply Z.div_pos; subst d; lia).
    pose proof (Z.div_mod d interval ltac:(lia)) as Hdm.
    pose proof (Z.mod_pos_bound d interval Hstep) as Hmod.
    split.
    + intros [k [<- Hk]]. apply in_seq in Hk.
      exists (Z.of_nat k). split; [lia | split; [reflexivity | ]].
      assert (Z.of_nat k <= d / interval).
      { subst count. fold d in Hk. lia. }
      subst d. nia.
    + intros [k [Hk0 [-> Hk]]].
      exists (Z.to_nat k). split; [rewrite Z2Nat.id by lia; reflexivity | ].
      apply in_seq. subst count. fold d.
      assert (k <= d / interval).
      { apply Z.div_le_lower_bound; [lia | subst d; lia]. }
      lia.
Qed.

Lemma generateTimeMarkers_steps_within_range_witness :
  exists markers,
    generateTimeMarkers differenceInDays_24h (fun _ f => f)
                        {| start := 0; end_ := 9000000 |} 800 3
    = Some markers
    /\ map TimeMarker.date markers = [0; 3600000; 7200000].
Proof.
  destruct (generateTimeMarkers_steps_within_range
              differenceInDays_24h (fun _ f => f)
              {| start := 0; end_ := 9000000 |} 800 ltac:(simpl; lia))
    as [hours [Hrow [Hint [markers [Hrun [Hdates _]]]]]].
  assert (Hhours : hours = 1).
  { destruct Hrow as [[_ H] | [[Hd _] | [[Hd _] | [Hd _]]]];
      [exact H | vm_compute in Hd; destruct Hd as [Hd _]; now contradict Hd
       | vm_compute in Hd; destruct Hd as [Hd _]; now contradict Hd
       | vm_compute in Hd; now contradict Hd]. }
  subst hours.
  exists markers. split.
  - apply Hrun. vm_compute. lia.
  - exact Hdates.
Defined.

(** C10.  For a range with [start <= end] the marker loop terminates: the
    interval is 1, 6, 24 or 168 hours, hence positive; every iteration
    moves [currentDate] strictly forward; and after finitely many
    iterations the loop condition fails, leaving a finite marker list. *)
Theorem generateTimeMarkers_terminates :
  forall (differenceInDays : Z -> Z -> Z)
         (format : Z -> string -> string) (timeRange : TimeRange) (width : Z),
    start timeRange <= end_ timeRange ->
    let hours := intervalHours (daysInRange differenceInDays timeRange) in
    (hours = 1 \/ hours = 6 \/ hours = 24 \/ hours = 168)
    /\ (forall st, currentDate st < currentDate (loopBody differenceInDays format timeRange width st))
    /\ exists (fuel : nat) (final : LoopState),
        (forall fuel', (fuel <= fuel')%nat ->
           whileLoop differenceInDays format timeRange width fuel'
                     {| currentDate := start timeRange; markers := [] |}
           = Some final)
        /\ loopCondition timeRange final = false
        /\ generateTimeMarkers differenceInDays format timeRange width fuel = Some (markers final)
        /\ List.length (markers final) = fuel.
Proof.
  intros differenceInDays format timeRange width Hle hours.
  pose proof (intervalMs_pos differenceInDays timeRange) as Hstep.
  split; [apply intervalHours_values | split].
  - intros st. unfold loopBody. cbn [currentDate]. lia.
  - exists (markerCount differenceInDays timeRange). eexists. split; [ | split; [ | split]].
    + intros fuel' Hfuel.
      apply (generateTimeMarkers_run differenceInDays format timeRange width
                                     fuel' Hle Hfuel).
    + unfold loopCondition. cbn [currentDate]. apply Z.leb_gt.
      set (d := end_ timeRange - start timeRange).
      assert (Hq : 0 <= d / intervalMs differenceInDays timeRange) by (apply Z.div_pos; subst d; lia).
      pose proof (Z.div_mod d (intervalMs differenceInDays timeRange) ltac:(lia)) as Hdm.
      pose proof (Z.mod_pos_bound d (intervalMs differenceInDays timeRange) Hstep) as Hmod.
      unfold markerCount. fold d.
      rewrite Nat2Z.inj_succ, Z2Nat.id by lia. subst d. nia.
    + unfold generateTimeMarkers.
      rewrite (generateTimeMarkers_run differenceInDays format timeRange width
                 _ Hle (le_n _)).
      reflexivity.
    + cbn [markers]. apply markersFrom_length.
Qed.

Lemma generateTimeMarkers_terminates_witness :
  exists (fuel : nat) (final : LoopState),
    generateTimeMarkers differenceInDays_24h (fun _ f => f)
                        {| start := 0; end_ := 9000000 |} 800 fuel
    = Some (markers final)
    /\ List.length (markers final) = fuel.
Proof.
  destruct (generateTimeMarkers_terminates
              differenceInDays_24h (fun _ f => f)
              {| start := 0; end_ := 9000000 |} 800
              ltac:(simpl; lia))
    as [_ [_ [fuel [final [_ [_ [Hgen Hlen]]]]]]].
  exists fuel, final. split; assumption.
Defined.

End ScrobbleTimelineFacts.

(** ** Pagination *)

Module MUIScrobbleTimelineFacts.
Import MUIScrobbleTimeline.

Lemma Math_ceil_div_25 (n : Z) :
  Math_ceil_div n (Z.to_pos itemsPerPage) = - ((- n) / 25).
Proof. reflexivity. Qed.

(** [t = ceil(n / 25)]: the least [t] with [n <= 25 t]. *)
Lemma ceiling_25_bounds (n : Z) :
  25 * (- ((- n) / 25) - 1) < n <= 25 * (- ((- n) / 25)).
Proof.
  pose proof (Z.div_mod (- n) 25 ltac:(lia)).
  pose proof (Z.mod_pos_bound (- n) 25 ltac:(lia)).
  lia.
Qed.

Lemma totalPages_pos (scrobbles : list Scrobble) :
  scrobbles <> [] -> 1 <= totalPages scrobbles.
Proof.
  intros Hne. unfold totalPages. rewrite Math_ceil_div_25.
  assert (0 < Z.of_nat (List.length scrobbles))
    by (destruct scrobbles; [congruence | cbn [List.length]; lia]).
  pose proof (ceiling_25_bounds (Z.of_nat (List.length scrobbles))). lia.
Qed.

(** C5, counterexample.  For the empty list the code's page count is 0, not
    the 1 that [max(1, ceil(n / 25))] gives. *)
Lemma totalPages_empty_list_is_zero :
  totalPages [] = 0
  /\ spec_totalPages (Z.of_nat (List.length (@nil Scrobble))) = 1
  /\ ~ (forall scrobbles : list Scrobble,
          totalPages scrobbles
          = spec_totalPages (Z.of_nat (List.length scrobbles))).
Proof.
  split; [reflexivity | split; [reflexivity | ]].
  intros H. specialize (H []). discriminate H.
Qed.

(** C5, amended.  For every list of length [n] the page count is
    [ceil(n / 25)] (the least [t] with [n <= 25 t]); that is
    [max(1, ceil(n / 25))] and at least 1 when [n > 0], and it is 0 when
    [n = 0]. *)
Theorem totalPages_is_ceiling :
  forall scrobbles : list Scrobble,
    let n := Z.of_nat (List.length scrobbles) in
    (25 * (totalPages scrobbles - 1) < n <= 25 * totalPages scrobbles)
    /\ (0 < n -> totalPages scrobbles = spec_totalPages n
                 /\ 1 <= totalPages scrobbles)
    /\ (n = 0 -> totalPages scrobbles = 0).
Proof.
  intros scrobbles n. unfold totalPages. fold n.
  rewrite Math_ceil_div_25. pose proof (ceiling_25_bounds n) as Hb.
  split; [exact Hb | split].
  - intros Hn. unfold spec_totalPages. lia.
  - intros ->. reflexivity.
Qed.

Lemma totalPages_is_ceiling_witness :
  totalPages (repeat (sampleScrobble 1 0) 60) = 3
  /\ totalPages (@nil Scrobble) = 0.
Proof.
  split.
  - destruct (totalPages_is_ceiling (repeat (sampleScrobble 1 0) 60))
      as [_ [H _]].
    destruct (H ltac:(vm_compute; reflexivity)) as [-> _]. reflexivity.
  - destruct (totalPages_is_ceiling (@nil Scrobble)) as [_ [_ H]].
    apply H. reflexivity.
Defined.

(** C6, counterexample.  With 60 scrobbles there are 3 pages; [goToPage 5]
    sets the page to 5, and typing 5 into the page input while on page 2
    leaves the page at 2 instead of clamping it to 3. *)
Lemma goToPage_is_not_clamped :
  totalPages (repeat (sampleScrobble 1 0) 60) = 3
  /\ goToPage 5 = 5
  /\ ~ (1 <= goToPage 5 <= totalPages (repeat (sampleScrobble 1 0) 60))
  /\ navigate 3 (InputChange (Some 5)) 2 = 2
  /\ spec_goto 3 5 = 3.
Proof.
  repeat split; try reflexivity.
  vm_compute. intros [_ H]. apply H. reflexivity.
Qed.

(** C6, amended.  While the controls are shown (the list is not empty) and
    the page is in [1, totalPages], every use of the controls leaves it
    there.  [goToPage] itself stores its argument unchanged; its callers
    keep it in range: the input's change handler accepts a value in range
    and ignores any other (the page stays), and its blur handler sets the
    page to 1 for a value below 1 and to [totalPages] for a value above. *)
Theorem navigate_stays_in_range :
  forall (scrobbles : list Scrobble) (nav : Navigation) (currentPage : Z),
    scrobbles <> [] ->
    let total := totalPages scrobbles in
    1 <= currentPage <= total ->
    1 <= navigate total nav currentPage <= total
    /\ (forall p, goToPage p = p)
    /\ (forall v, 1 <= v <= total ->
          navigate total (InputChange (Some v)) currentPage = v)
    /\ (forall v, ~ 1 <= v <= total ->
          navigate total (InputChange (Some v)) currentPage = currentPage
          /\ navigate total (InputBlur (Some v)) currentPage = spec_goto total v).
Proof.
  intros scrobbles nav currentPage Hne total Hcur.
  pose proof (totalPages_pos scrobbles Hne) as Htotal. fold total in Htotal.
  split; [ | split; [reflexivity | split]].
  - destruct nav as [ | | | | [v | ] | [v | ]]; cbn [navigate];
      unfold goToFirstPage, goToPreviousPage, goToNextPage, goToLastPage,
        onChange, onBlur, goToPage; try lia.
    + destruct (Z.leb_spec 1 v), (Z.leb_spec v total); cbn [andb]; lia.
    + destruct (Z.ltb_spec v 1); [lia | ].
      destruct (Z.ltb_spec total v); lia.
  - intros v Hv. cbn [navigate]. unfold onChange, goToPage.
    destruct (Z.leb_spec 1 v), (Z.leb_spec v total); cbn [andb]; lia.
  - intros v Hv. cbn [navigate]. unfold onChange, onBlur, goToPage, spec_goto.
    split.
    + destruct (Z.leb_spec 1 v), (Z.leb_spec v total); cbn [andb]; lia.
    + destruct (Z.ltb_spec v 1); [lia | ].
      destruct (Z.ltb_spec total v); lia.
Qed.

Lemma navigate_stays_in_range_witness :
  1 <= navigate 3 Next 3 <= 3
  /\ navigate 3 (InputBlur (Some 7)) 2 = 3.
Proof.
  destruct (navigate_stays_in_range
              (repeat (sampleScrobble 1 0) 60) Next 3
              ltac:(discriminate) ltac:(vm_compute; split; discriminate))
    as [Hrange _].
  destruct (navigate_stays_in_range
              (repeat (sampleScrobble 1 0) 60) Next 2
              ltac:(discriminate) ltac:(vm_compute; split; discriminate))
    as [_ [_ [_ Hout]]].
  split.
  - exact Hrange.
  - destruct (Hout 7 ltac:(vm_compute; intros [_ H]; apply H; reflexivity))
      as [_ Hblur].
    exact Hblur.
Defined.

End MUIScrobbleTimelineFacts.

(** ** The hook: responses, failures, selection *)

Module UseScrobbleTimelineFacts.
Import ScrobbleTimeline UseScrobbleTimeline.

(** *** [sort] *)

Lemma insert_Permutation x l : Permutation (x :: l) (insert x l).
Proof.
  induction l as [ | y l IH]; cbn [insert]; [reflexivity | ].
  destruct (compareFn x y <=? 0); [reflexivity | ].
  rewrite perm_swap. now apply perm_skip.
Qed.

Lemma sort_Permutation l : Permutation l (sort l).
Proof.
  induction l as [ | x l IH]; cbn [sort]; [reflexivity | ].
  rewrite <- insert_Permutation. now apply perm_skip.
Qed.

Lemma insert_sorted x l :
  StronglySorted newerFirst l -> StronglySorted newerFirst (insert x l).
Proof.
  induction 1 as [ | y l Hs IH Hall]; cbn [insert].
  - repeat constructor.
  - unfold compareFn. destruct (Z.leb_spec (listened_at y - listened_at x) 0) as [Hle | Hgt].
    + constructor; [constructor; assumption | ].
      constructor; [unfold newerFirst; lia | ].
      eapply Forall_impl; [ | exact Hall].
      unfold newerFirst. intros z Hz. lia.
    + constructor; [exact IH | ].
      apply Forall_forall. intros z Hz.
      apply (Permutation_in _ (Permutation_sym (insert_Permutation x l))) in Hz.
      destruct Hz as [<- | Hz].
      * unfold newerFirst. lia.
      * rewrite Forall_forall in Hall. now apply Hall.
Qed.

Lemma sort_sorted l : StronglySorted newerFirst (sort l).
Proof.
  induction l as [ | x l IH]; cbn [sort]; [constructor | ].
  now apply insert_sorted.
Qed.

(** *** [filter] with [findIndex] *)

Lemma filterFrom_In {A : Type} (p : A -> Z -> bool) (l : list A) :
  forall i y, In y (filterFrom p l i) ->
              In y l /\ exists j, i <= j /\ p y j = true.
Proof.
  induction l as [ | x l IH]; intros i y Hin; cbn [filterFrom] in Hin.
  - contradiction.
  - destruct (p x i) eqn:Hp.
    + destruct Hin as [<- | Hin].
      * split; [now left | exists i; split; [lia | exact Hp]].
      * destruct (IH _ _ Hin) as [Hl [j [Hj Hpj]]].
        split; [now right | exists j; split; [lia | exact Hpj]].
    + destruct (IH _ _ Hin) as [Hl [j [Hj Hpj]]].
      split; [now right | exists j; split; [lia | exact Hpj]].
Qed.

Lemma filterFrom_app {A : Type} (p : A -> Z -> bool) (l1 l2 : list A) :
  forall i, filterFrom p (l1 ++ l2) i
            = filterFrom p l1 i ++ filterFrom p l2 (i + Z.of_nat (List.length l1)).
Proof.
  induction l1 as [ | x l1 IH]; intros i; cbn [filterFrom app List.length].
  - now rewrite Z.add_0_r.
  - rewrite IH.
    replace (i + 1 + Z.of_nat (List.length l1))
      with (i + Z.of_nat (S (List.length l1))) by lia.
    destruct (p x i); reflexivity.
Qed.

Lemma filterFrom_sorted {A : Type} (R : A -> A -> Prop) (p : A -> Z -> bool) (l : list A) :
  StronglySorted R l -> forall i, StronglySorted R (filterFrom p l i).
Proof.
  induction 1 as [ | x l Hs IH Hall]; intros i; cbn [filterFrom]; [constructor | ].
  destruct (p x i); [ | apply IH].
  constructor; [apply IH | ].
  apply Forall_forall. intros y Hy.
  apply filterFrom_In in Hy. destruct Hy as [Hy _].
  rewrite Forall_forall in Hall. now apply Hall.
Qed.

Lemma filterFrom_unique_ids (self l : list Scrobble) :
  forall i, NoDup (map id (filterFrom (isFirstWithId self) l i)).
Proof.
  induction l as [ | x l IH]; intros i; cbn [filterFrom]; [constructor | ].
  destruct (isFirstWithId self x i) eqn:Hx; [ | apply IH].
  cbn [map]. constructor; [ | apply IH].
  intros Hin. apply in_map_iff in Hin. destruct Hin as [y [Hid Hy]].
  apply filterFrom_In in Hy. destruct Hy as [_ [j [Hj Hpj]]].
  unfold isFirstWithId in Hx, Hpj. rewrite Hid in Hpj.
  apply Z.eqb_eq in Hx, Hpj. lia.
Qed.

(** [findIndex] finds the first element with the wanted id. *)
Lemma findIndexFrom_first (wanted : Z) (l : list Scrobble) :
  forall i x, In x l -> id x = wanted ->
    exists pre y post,
      l = pre ++ y :: post /\ id y = wanted
      /\ findIndexFrom (fun s => id s =? wanted) l i = i + Z.of_nat (List.length pre).
Proof.
  induction l as [ | z l IH]; intros i x Hin Hid; [contradiction | ].
  cbn [findIndexFrom]. destruct (Z.eqb_spec (id z) wanted) as [Hz | Hz].
  - exists [], z, l. cbn. split; [reflexivity | split; [exact Hz | lia]].
  - destruct Hin as [-> | Hin]; [contradiction | ].
    destruct (IH (i + 1) x Hin Hid) as [pre [y [post [-> [Hy Hidx]]]]].
    exists (z :: pre), y, post. cbn [app List.length].
    split; [reflexivity | split; [exact Hy | ]].
    rewrite Hidx. lia.
Qed.

Lemma uniqueScrobbles_keeps_ids (l : list Scrobble) (x : Scrobble) :
  In x l -> In (id x) (map id (uniqueScrobbles l)).
Proof.
  intros Hin.
  destruct (findIndexFrom_first (id x) l 0 x Hin eq_refl)
    as [pre [y [post [Hl [Hy Hidx]]]]].
  apply in_map_iff. exists y. split; [exact Hy | ].
  unfold uniqueScrobbles. rewrite Hl at 2. rewrite filterFrom_app.
  apply in_or_app. right. cbn [filterFrom].
  assert (Hkeep : isFirstWithId l y (0 + Z.of_nat (List.length pre)) = true).
  { unfold isFirstWithId, findIndex. rewrite Hy, Hidx. apply Z.eqb_refl. }
  rewrite Hkeep. now left.
Qed.

Lemma uniqueScrobbles_subset (l : list Scrobble) (x : Scrobble) :
  In x (uniqueScrobbles l) -> In x l.
Proof. intros H. now apply filterFrom_In in H. Qed.

(** The list stored by a successful fetch, property by property. *)
Lemma fetched_scrobbles_unique_and_sorted_parts
      (username : string) (replies : Replies) (st : State)
      (raw : list Scrobble) (userId : Z) :
  fetchResponse replies = Fulfilled tt ->
  userResponse replies = Fulfilled (Some userId) ->
  response replies = Fulfilled raw ->
  NoDup (map id (scrobbles (fetchScrobbles_settle username replies st)))
  /\ StronglySorted newerFirst (scrobbles (fetchScrobbles_settle username replies st))
  /\ (forall x, In x (scrobbles (fetchScrobbles_settle username replies st)) ->
               In x raw).
Proof.
  intros Hf Hu Hr.
  assert (Hshown : scrobbles (fetchScrobbles_settle username replies st)
                   = uniqueScrobbles (sort raw)).
  { unfold fetchScrobbles_settle, tryBlock. rewrite Hf, Hu, Hr. reflexivity. }
  rewrite Hshown. repeat split.
  - apply filterFrom_unique_ids.
  - apply filterFrom_sorted, sort_sorted.
  - intros x Hx. apply uniqueScrobbles_subset in Hx.
    apply (Permutation_in _ (Permutation_sym (sort_Permutation raw))). exact Hx.
Qed.

(** C7.  Whatever list a successful fetch returns, the list stored for
    display has no two entries with the same id and is sorted by timestamp,
    newest first; it is drawn from the response and loses no id of it. *)
Theorem fetched_scrobbles_unique_and_sorted :
  forall (username : string) (replies : Replies) (st : State)
         (raw : list Scrobble) (userId : Z),
    fetchResponse replies = Fulfilled tt ->
    userResponse replies = Fulfilled (Some userId) ->
    response replies = Fulfilled raw ->
    let shown := scrobbles (fetchScrobbles_settle username replies st) in
    NoDup (map id shown)
    /\ StronglySorted newerFirst shown
    /\ (forall x, In x shown -> In x raw)
    /\ (forall x, In x raw -> In (id x) (map id shown)).
Proof.
  intros username replies st raw userId Hf Hu Hr shown.
  assert (Hshown : shown = uniqueScrobbles (sort raw)).
  { subst shown. unfold fetchScrobbles_settle, tryBlock.
    rewrite Hf, Hu, Hr. reflexivity. }
  rewrite Hshown. repeat split.
  - apply filterFrom_unique_ids.
  - apply filterFrom_sorted, sort_sorted.
  - intros x Hx. apply uniqueScrobbles_subset in Hx.
    apply (Permutation_in _ (Permutation_sym (sort_Permutation raw))). exact Hx.
  - intros x Hx. apply uniqueScrobbles_keeps_ids.
    apply (Permutation_in _ (sort_Permutation raw)). exact Hx.
Qed.

Lemma fetched_scrobbles_unique_and_sorted_witness :
  let raw := [sampleScrobble 1 5; sampleScrobble 2 9; sampleScrobble 1 7] in
  let replies := {| fetchResponse := Fulfilled tt;
                    userResponse := Fulfilled (Some 42);
                    response := Fulfilled raw |} in
  let shown :=
    scrobbles (fetchScrobbles_settle "rj" replies (initialState (mkTimeRange 0 10))) in
  NoDup (map id shown) /\ StronglySorted newerFirst shown.
Proof.
  intros raw replies shown.
  destruct (fetched_scrobbles_unique_and_sorted
              "rj" replies (initialState (mkTimeRange 0 10)) raw 42
              eq_refl eq_refl eq_refl)
    as [Hnodup [Hsorted _]].
  split; assumption.
Defined.

(** The fields of the hook after a failed fetch: the message of the failure
    is stored as the error and loading is switched off; the scrobble list,
    the time range and the selected and hovered scrobbles are what they
    were before the fetch began. *)
Lemma failed_fetch_changes_only_error_and_loading :
  forall (username : string) (replies : Replies) (st : State) (err : Thrown),
    tryBlock username replies = Rejected err ->
    let began := fetchScrobbles_begin username st in
    let st' := fetchScrobbles_settle username replies began in
    error st' = Some (errorMessage err)
    /\ loading st' = false
    /\ scrobbles st' = scrobbles st
    /\ selectedScrobble st' = selectedScrobble st
    /\ hoveredScrobble st' = hoveredScrobble st
    /\ timeRange st' = timeRange st
    /\ st' = setLoading false (setError (Some (errorMessage err)) st).
Proof.
  intros username replies st err Hfail began st'.
  subst st' began. unfold fetchScrobbles_settle. rewrite Hfail.
  unfold fetchScrobbles_begin. destruct (isEmpty username); repeat split.
Qed.

(** *** Responses that arrive late *)

Lemma step_scrobbles username h ev h' :
  step username h ev = Some h' ->
  scrobbles (state h') = lastFulfilled username (scrobbles (state h)) [ev].
Proof.
  destruct ev as [range | range replies | s | s]; cbn [step lastFulfilled].
  - intros [= <-]. cbn [state runFetchEffect]. unfold fetchScrobbles_begin.
    destruct (isEmpty username); reflexivity.
  - destruct (removeFirst range (inflight h)); [ | discriminate].
    intros [= <-]. cbn [state]. unfold fetchScrobbles_settle.
    destruct (tryBlock username replies); reflexivity.
  - intros [= <-]. reflexivity.
  - intros [= <-]. reflexivity.
Qed.

Lemma lastFulfilled_cons username shown ev evs :
  lastFulfilled username shown (ev :: evs)
  = lastFulfilled username (lastFulfilled username shown [ev]) evs.
Proof.
  destruct ev as [range | range replies | s | s]; cbn [lastFulfilled];
    try reflexivity.
  destruct (tryBlock username replies); reflexivity.
Qed.

Lemma lastFulfilled_origin username shown evs :
  lastFulfilled username shown evs = shown
  \/ exists range replies,
       In (FetchSettled range replies) evs
       /\ tryBlock username replies = Fulfilled (lastFulfilled username shown evs).
Proof.
  revert shown. induction evs as [ | ev evs IH]; intros shown; [now left | ].
  destruct ev as [range | range replies | s | s]; cbn [lastFulfilled].
  2: destruct (tryBlock username replies) as [l | err] eqn:Htry.
  2: { destruct (IH l) as [-> | [r [rp [Hin Hrp]]]].
       - right. exists range, replies. split; [now left | exact Htry].
       - right. exists r, rp. split; [now right | exact Hrp]. }
  all: destruct (IH shown) as [-> | [r [rp [Hin Hrp]]]];
    [now left | right; exists r, rp; split; [now right | exact Hrp]].
Qed.

(** C4, counterexample.  A fetch for [R1] is in flight, the range is changed
    to [R2], the fetch for [R2] settles and then the one for [R1]: the
    response for [R1] becomes the displayed list although the current range
    is [R2]. *)
Lemma stale_response_is_displayed :
  let R1 := {| start := 0; end_ := 1000 |} in
  let R2 := {| start := 5000; end_ := 9000 |} in
  let forR1 := [sampleScrobble 1 500] in
  let forR2 := [sampleScrobble 2 7000] in
  exists h,
    run "rj" (mount "rj" R1)
        [RangeChanged R2;
         FetchSettled R2 (fulfilledWith forR2);
         FetchSettled R1 (fulfilledWith forR1)]
    = Some h
    /\ timeRange (state h) = R2
    /\ scrobbles (state h) = forR1
    /\ loading (state h) = false
    /\ error (state h) = None
    /\ inflight h = [].
Proof. eexists. repeat split. Qed.

(** C4, amended.  Every response is applied when it arrives, whatever range
    it was requested for: after any sequence of events the displayed list is
    the one built from the successful response that settled last (the last
    response to arrive wins), and so it is always the list of a single
    response, or still the list shown at the beginning. *)
Theorem last_settled_response_is_displayed :
  forall (username : string) (evs : list Event) (h h' : Hook),
    run username h evs = Some h' ->
    scrobbles (state h') = lastFulfilled username (scrobbles (state h)) evs
    /\ (scrobbles (state h') = scrobbles (state h)
        \/ exists range replies,
             In (FetchSettled range replies) evs
             /\ tryBlock username replies = Fulfilled (scrobbles (state h'))).
Proof.
  intros username evs h h' Hrun.
  assert (Heq : scrobbles (state h')
                = lastFulfilled username (scrobbles (state h)) evs).
  { revert h Hrun. induction evs as [ | ev evs IH]; intros h Hrun.
    - cbn in Hrun. injection Hrun as <-. reflexivity.
    - cbn [run] in Hrun. destruct (step username h ev) as [h1 | ] eqn:Hstep;
        [ | discriminate].
      rewrite lastFulfilled_cons, <- (step_scrobbles _ _ _ _ Hstep).
      now apply IH. }
  split; [exact Heq | ].
  rewrite Heq. apply lastFulfilled_origin.
Qed.

Lemma last_settled_response_is_displayed_witness :
  exists h,
    run "rj" (mount "rj" {| start := 0; end_ := 1000 |})
        [RangeChanged {| start := 5000; end_ := 9000 |};
         FetchSettled {| start := 0; end_ := 1000 |}
                      (fulfilledWith [sampleScrobble 1 500])]
    = Some h
    /\ scrobbles (state h) = [sampleScrobble 1 500].
Proof.
  eexists. split; [reflexivity | ].
  match goal with
  | |- scrobbles (state ?h) = _ =>
      destruct (last_settled_response_is_displayed
                  "rj"
                  [RangeChanged {| start := 5000; end_ := 9000 |};
                   FetchSettled {| start := 0; end_ := 1000 |}
                                (fulfilledWith [sampleScrobble 1 500])]
                  (mount "rj" {| start := 0; end_ := 1000 |}) h eq_refl)
        as [Heq _]
  end.
  exact Heq.
Defined.

(** *** A selection that is no longer in the list *)

Lemma find_none_when_absent (positioned : list PositionedScrobble.t) (wanted : Z) :
  (forall p, In p positioned -> id (PositionedScrobble.scrobble p) <> wanted) ->
  find (fun s => id (PositionedScrobble.scrobble s) =? wanted) positioned = None.
Proof.
  induction positioned as [ | p l IH]; intros Habsent; [reflexivity | ].
  cbn [find]. destruct (Z.eqb_spec (id (PositionedScrobble.scrobble p)) wanted) as [He | _].
  - exfalso. apply (Habsent p); [now left | exact He].
  - apply IH. intros q Hq. apply Habsent. now right.
Qed.

(** C8, counterexample.  Scrobble 1 is selected, then the range changes and
    the new list does not contain it: it is still the selected scrobble (and
    the scroll effect does nothing). *)
Lemma stale_selection_is_kept :
  let R1 := {| start := 0; end_ := 1000 |} in
  let R2 := {| start := 5000; end_ := 9000 |} in
  let s1 := sampleScrobble 1 500 in
  let s2 := sampleScrobble 2 7000 in
  exists h,
    run "rj" (mount "rj" R1)
        [FetchSettled R1 (fulfilledWith [s1]);
         Selected (Some s1);
         RangeChanged R2;
         FetchSettled R2 (fulfilledWith [s2])]
    = Some h
    /\ scrobbles (state h) = [s2]
    /\ selectedScrobble (state h) = Some s1
    /\ selectedScrobble (state h) <> None
    /\ scrollEffect (Some 400)
                    (positionScrobbles (scrobbles (state h)) (timeRange (state h))
                       (calculateTimelineWidth DateFns.differenceInDays_24h
                                               (scrobbles (state h))
                                               (timeRange (state h))))
                    (selectedScrobble (state h))
       = None.
Proof. eexists. repeat split. discriminate. Qed.

(** C8, amended.  When the selected scrobble is not among the positioned
    scrobbles, [scrollToScrobble] returns without scrolling and without an
    error, and the selection stays as it is: no event other than a call of
    [setSelectedScrobble] changes the selected scrobble. *)
Theorem absent_selection_is_left_alone :
  forall (username : string) (h h' : Hook) (ev : Event)
         (timelineElement : option Z)
         (positioned : list PositionedScrobble.t) (scrobble : Scrobble),
    step username h ev = Some h' ->
    (forall s, ev <> Selected s) ->
    (forall p, In p positioned -> id (PositionedScrobble.scrobble p) <> id scrobble) ->
    selectedScrobble (state h') = selectedScrobble (state h)
    /\ scrollToScrobble timelineElement positioned scrobble = None.
Proof.
  intros username h h' ev timelineElement positioned scrobble Hstep Hev Habsent.
  split.
  - destruct ev as [range | range replies | s | s]; cbn [step] in Hstep.
    + injection Hstep as <-. cbn [state runFetchEffect].
      unfold fetchScrobbles_begin. destruct (isEmpty username); reflexivity.
    + destruct (removeFirst range (inflight h)); [ | discriminate].
      injection Hstep as <-. cbn [state]. unfold fetchScrobbles_settle.
      destruct (tryBlock username replies); reflexivity.
    + exfalso. now apply (Hev s).
    + injection Hstep as <-. reflexivity.
  - unfold scrollToScrobble. destruct timelineElement; [ | reflexivity].
    now rewrite find_none_when_absent.
Qed.

Lemma absent_selection_is_left_alone_witness :
  let st := setSelectedScrobble (Some (sampleScrobble 1 500))
              (initialState {| start := 5000; end_ := 9000 |}) in
  let h := {| state := st; inflight := [{| start := 5000; end_ := 9000 |}] |} in
  exists h',
    step "rj" h (FetchSettled {| start := 5000; end_ := 9000 |}
                              (fulfilledWith [sampleScrobble 2 7000]))
    = Some h'
    /\ selectedScrobble (state h') = Some (sampleScrobble 1 500)
    /\ scrollToScrobble (Some 400)
          (positionScrobbles (scrobbles (state h')) {| start := 5000; end_ := 9000 |} 800)
          (sampleScrobble 1 500)
       = None.
Proof.
  intros st h. eexists. split; [reflexivity | ].
  match goal with
  | |- selectedScrobble (state ?h') = _ /\ scrollToScrobble ?e ?ps ?s = _ =>
      destruct (absent_selection_is_left_alone
                  "rj" h h'
                  (FetchSettled {| start := 5000; end_ := 9000 |}
                                (fulfilledWith [sampleScrobble 2 7000]))
                  e ps s eq_refl)
        as [Hsel Hscroll]
  end.
  - intros s. discriminate.
  - intros p [<- | []]. cbn. discriminate.
  - split; [exact Hsel | exact Hscroll].
Defined.

End UseScrobbleTimelineFacts.

(** ** Pages of the list *)

Module PageFacts.
Import MUIScrobbleTimeline.

Lemma firstn_split {A : Type} (a b : nat) (l : list A) :
  (a <= b)%nat -> firstn b l = firstn a l ++ firstn (b - a) (skipn a l).
Proof.
  revert b l. induction a as [ | a IH]; intros b l Hab.
  - cbn [firstn skipn app]. now rewrite Nat.sub_0_r.
  - destruct b as [ | b]; [lia | ].
    destruct l as [ | x l]; [now rewrite !firstn_nil | ].
    cbn [firstn skipn app Nat.sub]. f_equal. apply IH. lia.
Qed.

(** A page from 1 on is the block of 25 indexes it stands for, cut at the
    end of the list. *)
Lemma currentItems_block (scrobbles : list Scrobble) (p : Z) :
  1 <= p ->
  let n := List.length scrobbles in
  let a := Nat.min (Z.to_nat ((p - 1) * 25)) n in
  let b := Nat.min (Z.to_nat (p * 25)) n in
  currentItems scrobbles p = firstn (b - a) (skipn a scrobbles).
Proof.
  intros Hp n a b. unfold currentItems, Array_slice, itemsPerPage.
  destruct (Z.ltb_spec (p * 25 - 25) 0); [lia | ].
  destruct (Z.ltb_spec (p * 25) 0); [lia | ].
  f_equal.
  - subst a b n. lia.
  - f_equal. subst a n. lia.
Qed.

Lemma pages_upto (scrobbles : list Scrobble) (m : nat) :
  List.concat (map (currentItems scrobbles)
              (map (fun k => Z.of_nat k + 1) (seq 0 m)))
  = firstn (Nat.min (25 * m) (List.length scrobbles)) scrobbles.
Proof.
  induction m as [ | m IH].
  - reflexivity.
  - rewrite seq_S, !map_app, List.concat_app, IH. cbn [map List.concat plus].
    rewrite app_nil_r, currentItems_block by lia. cbv zeta.
    replace (Z.to_nat ((Z.of_nat m + 1 - 1) * 25)) with (25 * m)%nat by lia.
    replace (Z.to_nat ((Z.of_nat m + 1) * 25)) with (25 * S m)%nat by lia.
    symmetry. apply firstn_split. lia.
Qed.

Lemma totalPages_bounds (scrobbles : list Scrobble) :
  25 * (totalPages scrobbles - 1) < Z.of_nat (List.length scrobbles)
  <= 25 * totalPages scrobbles.
Proof.
  unfold totalPages.
  change (Math_ceil_div ?n (Z.to_pos itemsPerPage)) with (- ((- n) / 25)).
  pose proof (Z.div_mod (- Z.of_nat (List.length scrobbles)) 25 ltac:(lia)).
  pose proof (Z.mod_pos_bound (- Z.of_nat (List.length scrobbles)) 25 ltac:(lia)).
  lia.
Qed.

(** X1.  The pages 1 .. totalPages, one after the other, are the whole
    list: every scrobble is on exactly one page, in the order of the list. *)
Theorem pages_cover_the_list :
  forall scrobbles : list Scrobble,
    List.concat (map (currentItems scrobbles) (pageNumbers scrobbles)) = scrobbles.
Proof.
  intros scrobbles. unfold pageNumbers. rewrite pages_upto.
  pose proof (totalPages_bounds scrobbles) as Hb.
  rewrite Nat.min_r by lia. apply firstn_all.
Qed.

(** X2.  Sizes of the pages: every page before the last has 25 items, the
    last page has the remaining 1 to 25, and a page after the last (the
    page number is not lowered when the list gets shorter) or page 0 is
    empty. *)
Theorem page_sizes :
  forall (scrobbles : list Scrobble) (p : Z),
    let n := Z.of_nat (List.length scrobbles) in
    let total := totalPages scrobbles in
    let size := Z.of_nat (List.length (currentItems scrobbles p)) in
    (1 <= p < total -> size = 25)
    /\ (1 <= p -> p = total -> size = n - 25 * (total - 1) /\ 1 <= size <= 25)
    /\ (total < p -> currentItems scrobbles p = [])
    /\ (p = 0 -> currentItems scrobbles p = []).
Proof.
  intros scrobbles p n total size.
  pose proof (totalPages_bounds scrobbles) as Hb. fold n total in Hb.
  assert (Hsize : 1 <= p ->
                  size = Z.min (p * 25) n - Z.min ((p - 1) * 25) n).
  { intros Hp. subst size. rewrite currentItems_block by exact Hp. cbv zeta.
    rewrite length_firstn, length_skipn. subst n. lia. }
  split; [ | split; [ | split]].
  - intros Hp. rewrite Hsize by lia. lia.
  - intros Hp Hlast. rewrite Hsize by lia. lia.
  - intros Hp. apply length_zero_iff_nil.
    assert (1 <= p) as Hp1 by lia. specialize (Hsize Hp1). subst size. lia.
  - intros ->. unfold currentItems, Array_slice, itemsPerPage.
    cbn [Z.mul Z.sub Z.ltb Z.compare Z.opp Z.add].
    rewrite Z.min_l by lia.
    replace (Z.to_nat _) with 0%nat by lia. reflexivity.
Qed.

Lemma page_sizes_witness :
  let scrobbles := repeat (sampleScrobble 1 0) 60 in
  List.length (currentItems scrobbles 2) = 25%nat
  /\ List.length (currentItems scrobbles 3) = 10%nat
  /\ currentItems scrobbles 4 = [].
Proof.
  intros scrobbles.
  destruct (page_sizes scrobbles 2) as [H2 _].
  destruct (page_sizes scrobbles 3) as [_ [H3 _]].
  destruct (page_sizes scrobbles 4) as [_ [_ [H4 _]]].
  split; [ | split].
  - specialize (H2 ltac:(vm_compute; split; [discriminate | reflexivity])).
    apply Nat2Z.inj. exact H2.
  - destruct (H3 ltac:(lia) ltac:(reflexivity)) as [H _].
    apply Nat2Z.inj. exact H.
  - apply H4. vm_compute. reflexivity.
Defined.

(** X3.  The [i]-th item of page [p] is the item of the list at index
    [(p - 1) × 25 + i]. *)
Theorem page_item_index :
  forall (scrobbles : list Scrobble) (p : Z) (i : nat),
    1 <= p -> (i < 25)%nat ->
    nth_error (currentItems scrobbles p) i
    = nth_error scrobbles (Z.to_nat ((p - 1) * 25) + i).
Proof.
  intros scrobbles p i Hp Hi.
  rewrite currentItems_block by exact Hp. cbv zeta.
  set (n := List.length scrobbles).
  set (a := Z.to_nat ((p - 1) * 25)).
  assert (Hb : Z.to_nat (p * 25) = (a + 25)%nat) by (subst a; lia).
  rewrite Hb.
  destruct (Nat.lt_ge_cases (a + i) n) as [Hin | Hout].
  - rewrite nth_error_firstn.
    destruct (Nat.ltb_spec i (Nat.min (a + 25) n - Nat.min a n)); [ | lia].
    rewrite nth_error_skipn. f_equal. lia.
  - transitivity (@None Scrobble).
    + apply nth_error_None. rewrite length_firstn, length_skipn. fold n. lia.
    + symmetry. apply nth_error_None. fold n. lia.
Qed.

Lemma page_item_index_witness :
  nth_error (currentItems (map (fun k => sampleScrobble (Z.of_nat k) 0) (seq 0 60)) 3) 4
  = Some (sampleScrobble 54 0).
Proof.
  rewrite (page_item_index _ 3 4 ltac:(lia) ltac:(lia)). reflexivity.
Defined.

End PageFacts.

(** ** More on the layout *)

Module LayoutFacts.
Import DateFns ScrobbleTimeline ScrobbleTimelineFacts.

(** The percentage with a positive span, as a rational. *)
Lemma positionPercentage_pos_span timeRange instant (d : positive) :
  end_ timeRange - start timeRange = Zpos d ->
  positionPercentage timeRange instant
  = JSNum.Fin (Qmax 0 (Qmin 1 ((instant - start timeRange) # d))).
Proof.
  intros Hspan. unfold positionPercentage, differenceInMilliseconds.
  rewrite Hspan. reflexivity.
Qed.

Lemma span_positive timeRange :
  start timeRange < end_ timeRange ->
  exists d, end_ timeRange - start timeRange = Zpos d.
Proof.
  intros Hlt. destruct (end_ timeRange - start timeRange) as [ | d | d] eqn:H;
    try lia. now exists d.
Qed.

Lemma offset_monotone timeRange width (a b : Z) :
  start timeRange < end_ timeRange -> 0 <= width -> a <= b ->
  JSNum.le (JSNum.mul (positionPercentage timeRange a) (JSNum.of_Z width))
           (JSNum.mul (positionPercentage timeRange b) (JSNum.of_Z width)).
Proof.
  intros Hlt Hw Hab. destruct (span_positive timeRange Hlt) as [d Hd].
  rewrite !(positionPercentage_pos_span _ _ d Hd).
  cbn [JSNum.mul JSNum.of_Z JSNum.le].
  apply Qmult_le_compat_r.
  - apply Q.max_le_compat_l, Q.min_le_compat_l.
    unfold Qle. cbn [Qnum Qden]. nia.
  - change 0%Q with (inject_Z 0). now rewrite <- Zle_Qle.
Qed.

Lemma positionScrobbles_In scrobbles timeRange width p :
  In p (positionScrobbles scrobbles timeRange width) ->
  In (PositionedScrobble.scrobble p) scrobbles
  /\ PositionedScrobble.position p
     = JSNum.mul (positionPercentage timeRange
                    (listened_at (PositionedScrobble.scrobble p)))
                 (JSNum.of_Z width).
Proof.
  unfold positionScrobbles.
  destruct (Z.of_nat (List.length scrobbles) =? 0); [contradiction | ].
  intros Hin. apply in_map_iff in Hin. destruct Hin as [s [<- Hs]].
  split; [exact Hs | reflexivity].
Qed.

(** X4.  With [start < end] the layout keeps the events and their order in
    time: every scrobble is positioned once, in the order of the list, and
    an event that is not earlier than another is not placed to its left. *)
Theorem positions_follow_time :
  forall (scrobbles : list Scrobble) (timeRange : TimeRange) (width : Z),
    start timeRange < end_ timeRange -> 0 <= width ->
    let positioned := positionScrobbles scrobbles timeRange width in
    map PositionedScrobble.scrobble positioned = scrobbles
    /\ forall p q, In p positioned -> In q positioned ->
         listened_at (PositionedScrobble.scrobble p)
         <= listened_at (PositionedScrobble.scrobble q) ->
         JSNum.le (PositionedScrobble.position p) (PositionedScrobble.position q).
Proof.
  intros scrobbles timeRange width Hlt Hw positioned. split.
  - subst positioned. unfold positionScrobbles.
    destruct scrobbles as [ | s l]; [reflexivity | ].
    destruct (Z.eqb_spec (Z.of_nat (List.length (s :: l))) 0) as [H | _];
      [cbn [List.length] in H; lia | ].
    rewrite map_map. cbn [PositionedScrobble.scrobble]. apply map_id.
  - intros p q Hp Hq Htime.
    apply positionScrobbles_In in Hp, Hq.
    destruct Hp as [_ ->], Hq as [_ ->].
    now apply offset_monotone.
Qed.

Lemma positions_follow_time_witness :
  let timeRange := {| start := 0; end_ := 1000 |} in
  let early := {| PositionedScrobble.scrobble := sampleScrobble 1 100;
                  PositionedScrobble.position := JSNum.Fin (80000 # 1000) |} in
  let late := {| PositionedScrobble.scrobble := sampleScrobble 2 600;
                 PositionedScrobble.position := JSNum.Fin (480000 # 1000) |} in
  positionScrobbles [sampleScrobble 2 600; sampleScrobble 1 100] timeRange 800
  = [late; early]
  /\ JSNum.le (PositionedScrobble.position early) (PositionedScrobble.position late).
Proof.
  intros timeRange early late. split; [reflexivity | ].
  destruct (positions_follow_time
              [sampleScrobble 2 600; sampleScrobble 1 100] timeRange 800
              ltac:(simpl; lia) ltac:(lia))
    as [_ Hmono].
  apply Hmono.
  - right. left. reflexivity.
  - left. reflexivity.
  - simpl. lia.
Defined.

(** X5.  With [start < end] the offsets are clamped to the timeline: an
    event at or before [start] is placed at 0 and an event at or after
    [end] at the full width. *)
Theorem position_of_an_event :
  forall (scrobbles : list Scrobble) (timeRange : TimeRange) (width : Z)
         (p : PositionedScrobble.t),
    start timeRange < end_ timeRange ->
    In p (positionScrobbles scrobbles timeRange width) ->
    let t := listened_at (PositionedScrobble.scrobble p) in
    (t <= start timeRange -> JSNum.equals (PositionedScrobble.position p) 0)
    /\ (end_ timeRange <= t ->
        JSNum.equals (PositionedScrobble.position p) (inject_Z width)).
Proof.
  intros scrobbles timeRange width p Hlt Hin t.
  apply positionScrobbles_In in Hin. destruct Hin as [_ ->]. fold t.
  destruct (span_positive timeRange Hlt) as [d Hd].
  rewrite (positionPercentage_pos_span _ _ d Hd).
  cbn [JSNum.mul JSNum.of_Z JSNum.equals].
  set (a := t - start timeRange).
  split.
  - intros Ht.
    assert (Hmin : (Qmin 1 (a # d) <= 0)%Q).
    { eapply Qle_trans; [apply Q.le_min_r | ].
      unfold Qle. cbn [Qnum Qden]. subst a. lia. }
    rewrite (Q.max_l _ _ Hmin). ring.
  - intros Ht.
    assert (H1 : (1 <= a # d)%Q)
      by (unfold Qle; cbn [Qnum Qden]; subst a; lia).
    rewrite (Q.min_l _ _ H1), Q.max_r by discriminate. ring.
Qed.

Lemma position_of_an_event_witness :
  JSNum.equals
    (JSNum.mul (positionPercentage {| start := 0; end_ := 1000 |} 1250)
               (JSNum.of_Z 800))
    800.
Proof.
  destruct (position_of_an_event
              [sampleScrobble 1 1250] {| start := 0; end_ := 1000 |} 800
              {| PositionedScrobble.scrobble := sampleScrobble 1 1250;
                 PositionedScrobble.position :=
                   JSNum.mul (positionPercentage {| start := 0; end_ := 1000 |} 1250)
                             (JSNum.of_Z 800) |}
              ltac:(simpl; lia) ltac:(left; reflexivity))
    as [_ Hend].
  specialize (Hend ltac:(simpl; lia)).
  exact Hend.
Defined.

(** X6.  Where the whole days of both ranges are counted in days of 24
    hours (as in every zone with a fixed offset), a longer list and a wider
    range never give a narrower timeline. *)
Theorem width_grows_with_input :
  forall (differenceInDays : Z -> Z -> Z)
         (scrobbles scrobbles' : list Scrobble) (timeRange timeRange' : TimeRange),
    differenceInDays (end_ timeRange) (start timeRange)
    = Z.quot (end_ timeRange - start timeRange) MS_PER_DAY ->
    differenceInDays (end_ timeRange') (start timeRange')
    = Z.quot (end_ timeRange' - start timeRange') MS_PER_DAY ->
    (List.length scrobbles <= List.length scrobbles')%nat ->
    start timeRange' <= start timeRange ->
    end_ timeRange <= end_ timeRange' ->
    calculateTimelineWidth differenceInDays scrobbles timeRange
    <= calculateTimelineWidth differenceInDays scrobbles' timeRange'.
Proof.
  intros differenceInDays l l' r r' H24 H24' Hlen Hs He.
  rewrite !calculateTimelineWidth_unfold. unfold daysInRange.
  rewrite H24, H24'.
  assert (Hq : Z.quot (end_ r - start r) MS_PER_DAY
               <= Z.quot (end_ r' - start r') MS_PER_DAY)
    by (apply Z.quot_le_mono; [reflexivity | lia]).
  lia.
Qed.

Lemma width_grows_with_input_witness :
  calculateTimelineWidth differenceInDays_24h (repeat (sampleScrobble 1 0) 3)
                         {| start := 0; end_ := 10 |}
  <= calculateTimelineWidth differenceInDays_24h (repeat (sampleScrobble 1 0) 20)
                            {| start := 0; end_ := 86400000 * 9 |}.
Proof.
  apply width_grows_with_input.
  - reflexivity.
  - reflexivity.
  - vm_compute. lia.
  - simpl. lia.
  - simpl. lia.
Defined.

End LayoutFacts.

(** ** More on the time markers *)

Module MarkerFacts.
Import DateFns ScrobbleTimeline ScrobbleTimelineFacts LayoutFacts.

Section Markers.
Variable differenceInDays : Z -> Z -> Z.
Variable format : Z -> string -> string.
Variable timeRange : TimeRange.
Variable width : Z.

Lemma whileLoop_more_fuel :
  forall (fuel : nat) (st final : LoopState),
    whileLoop differenceInDays format timeRange width fuel st = Some final ->
    forall fuel', (fuel <= fuel')%nat ->
      whileLoop differenceInDays format timeRange width fuel' st = Some final.
Proof.
  induction fuel as [ | fuel IH]; intros st final Hrun fuel' Hle;
    cbn [whileLoop] in Hrun;
    destruct (loopCondition timeRange st) eqn:Hcond.
  - discriminate.
  - injection Hrun as <-. now apply whileLoop_exit.
  - destruct fuel' as [ | fuel']; [lia | ].
    cbn [whileLoop]. rewrite Hcond. apply (IH _ _ Hrun). lia.
  - injection Hrun as <-. now apply whileLoop_exit.
Qed.

(** Whenever the loop returns for a range with [start <= end], it returns
    the markers at [start], [start + interval], ... *)
Lemma generateTimeMarkers_result (fuel : nat) (markers : list TimeMarker.t) :
  start timeRange <= end_ timeRange ->
  generateTimeMarkers differenceInDays format timeRange width fuel = Some markers ->
  markers = markersFrom differenceInDays format timeRange width (start timeRange)
                        (markerCount differenceInDays timeRange).
Proof.
  intros Hle Hgen. unfold generateTimeMarkers in Hgen.
  destruct (whileLoop differenceInDays format timeRange width fuel _) as [final | ] eqn:Hrun;
    [ | discriminate].
  injection Hgen as <-.
  pose proof (whileLoop_more_fuel _ _ _ Hrun
                (Nat.max fuel (markerCount differenceInDays timeRange)) (Nat.le_max_l _ _)) as H1.
  rewrite (generateTimeMarkers_run differenceInDays format timeRange width _ Hle
             (Nat.le_max_r _ _)) in H1.
  injection H1 as <-. reflexivity.
Qed.

Lemma markersFrom_In (n : nat) (c : Z) (m : TimeMarker.t) :
  In m (markersFrom differenceInDays format timeRange width c n) ->
  c <= TimeMarker.date m
  /\ m = markerAt differenceInDays format timeRange width (TimeMarker.date m).
Proof.
  pose proof (intervalMs_pos differenceInDays timeRange) as Hstep.
  revert c. induction n as [ | n IH]; intros c Hin; [contradiction | ].
  cbn [markersFrom] in Hin. destruct Hin as [<- | Hin].
  - cbn [markerAt TimeMarker.date]. split; [lia | reflexivity].
  - destruct (IH _ Hin) as [Hc Hm]. split; [lia | exact Hm].
Qed.

Lemma markersFrom_sorted (n : nat) (c : Z) :
  start timeRange < end_ timeRange -> 0 <= width ->
  StronglySorted
    (fun m m' => JSNum.le (TimeMarker.position m) (TimeMarker.position m'))
    (markersFrom differenceInDays format timeRange width c n).
Proof.
  intros Hlt Hw. pose proof (intervalMs_pos differenceInDays timeRange) as Hstep.
  revert c. induction n as [ | n IH]; intros c; cbn [markersFrom];
    constructor.
  - apply IH.
  - apply Forall_forall. intros m Hm.
    apply markersFrom_In in Hm. destruct Hm as [Hc ->].
    cbn [markerAt TimeMarker.position].
    apply offset_monotone; [assumption | assumption | lia].
Qed.

End Markers.

(** X7.  With [start < end] every marker the loop returns lies within the
    timeline, the first marker stands at [start] at offset 0, and the
    offsets do not decrease along the list. *)
Theorem markers_lie_on_the_timeline :
  forall (differenceInDays : Z -> Z -> Z)
         (format : Z -> string -> string) (timeRange : TimeRange) (width : Z)
         (fuel : nat) (markers : list TimeMarker.t),
    start timeRange < end_ timeRange -> 0 <= width ->
    generateTimeMarkers differenceInDays format timeRange width fuel = Some markers ->
    Forall (fun m => JSNum.between 0 width (TimeMarker.position m)) markers
    /\ (exists first rest,
          markers = first :: rest
          /\ TimeMarker.date first = start timeRange
          /\ JSNum.equals (TimeMarker.position first) 0)
    /\ StronglySorted
         (fun m m' => JSNum.le (TimeMarker.position m) (TimeMarker.position m'))
         markers.
Proof.
  intros differenceInDays format timeRange width fuel markers Hlt Hw Hgen.
  apply generateTimeMarkers_result in Hgen; [ | lia]. subst markers.
  split; [ | split].
  - apply Forall_forall. intros m Hm.
    apply markersFrom_In in Hm. destruct Hm as [_ ->].
    cbn [markerAt TimeMarker.position].
    destruct (positionPercentage_unit timeRange (TimeMarker.date m) Hlt)
      as [q [-> [Hq0 Hq1]]].
    cbn [JSNum.mul JSNum.of_Z JSNum.between].
    assert (Hw' : (0 <= inject_Z width)%Q)
      by (change 0%Q with (inject_Z 0); now rewrite <- Zle_Qle).
    split.
    + change (inject_Z 0) with 0%Q. now apply Qmult_le_0_compat.
    + rewrite <- (Qmult_1_l (inject_Z width)) at 2.
      now apply Qmult_le_compat_r.
  - unfold markerCount. cbn [markersFrom]. do 2 eexists.
    split; [reflexivity | split; [reflexivity | ]].
    cbn [markerAt TimeMarker.position].
    destruct (span_positive timeRange Hlt) as [d Hd].
    rewrite (positionPercentage_pos_span _ _ d Hd), Z.sub_diag.
    cbn [JSNum.mul JSNum.of_Z JSNum.equals].
    rewrite Q.max_l.
    + ring.
    + eapply Qle_trans; [apply Q.le_min_r | ]. discriminate.
  - now apply markersFrom_sorted.
Qed.

Lemma markers_lie_on_the_timeline_witness :
  exists markers,
    generateTimeMarkers differenceInDays_24h (fun _ f => f)
                        {| start := 0; end_ := 9000000 |} 800 5
    = Some markers
    /\ Forall (fun m => JSNum.between 0 800 (TimeMarker.position m)) markers.
Proof.
  eexists. split; [reflexivity | ].
  match goal with
  | |- Forall _ ?ms =>
      destruct (markers_lie_on_the_timeline
                  differenceInDays_24h (fun _ f => f) {| start := 0; end_ := 9000000 |} 800 5 ms
                  ltac:(simpl; lia) ltac:(lia) eq_refl)
        as [Hall _]
  end.
  exact Hall.
Defined.

(** X8.  For a range whose end is before its start the loop does not run:
    the marker list is empty, whatever the bound on iterations. *)
Theorem reversed_range_has_no_markers :
  forall (differenceInDays : Z -> Z -> Z)
         (format : Z -> string -> string) (timeRange : TimeRange) (width : Z)
         (fuel : nat),
    end_ timeRange < start timeRange ->
    generateTimeMarkers differenceInDays format timeRange width fuel = Some [].
Proof.
  intros differenceInDays format timeRange width fuel Hrev. unfold generateTimeMarkers.
  rewrite whileLoop_exit; [reflexivity | ].
  unfold loopCondition. cbn [currentDate]. apply Z.leb_gt. exact Hrev.
Qed.

Lemma reversed_range_has_no_markers_witness :
  generateTimeMarkers differenceInDays_24h (fun _ f => f)
                      {| start := 5000; end_ := 1000 |} 800 0
  = Some [].
Proof.
  apply reversed_range_has_no_markers. simpl. lia.
Defined.

(** X9.  For a zero-length range the loop returns a single marker, at
    [start]; its offset is NaN, the quotient of zero by the zero span. *)
Theorem zero_length_range_has_one_marker :
  forall (differenceInDays : Z -> Z -> Z)
         (format : Z -> string -> string) (timeRange : TimeRange) (width : Z)
         (fuel : nat) (markers : list TimeMarker.t),
    end_ timeRange = start timeRange ->
    generateTimeMarkers differenceInDays format timeRange width fuel = Some markers ->
    exists m, markers = [m]
              /\ TimeMarker.date m = start timeRange
              /\ TimeMarker.position m = JSNum.NaN.
Proof.
  intros differenceInDays format timeRange width fuel markers Heq Hgen.
  apply generateTimeMarkers_result in Hgen; [ | lia]. subst markers.
  unfold markerCount. rewrite Heq, Z.sub_diag, Z.div_0_l
    by (pose proof (intervalMs_pos differenceInDays timeRange); lia).
  cbn [Z.to_nat markersFrom]. eexists.
  split; [reflexivity | split; [reflexivity | ]].
  cbn [markerAt TimeMarker.position].
  rewrite positionPercentage_empty_span by exact Heq.
  rewrite Z.compare_refl. reflexivity.
Qed.

Lemma zero_length_range_has_one_marker_witness :
  exists m,
    generateTimeMarkers differenceInDays_24h (fun _ f => f)
                        {| start := 1000; end_ := 1000 |} 800 1
    = Some [m]
    /\ TimeMarker.position m = JSNum.NaN.
Proof.
  destruct (zero_length_range_has_one_marker
              differenceInDays_24h (fun _ f => f) {| start := 1000; end_ := 1000 |} 800 1 _
              eq_refl eq_refl)
    as [m [Hm [_ Hpos]]].
  exists m. split; [ | exact Hpos].
  rewrite <- Hm. reflexivity.
Defined.

(** X10.  Where the whole days of the range are counted in days of 24
    hours (as in every zone with a fixed offset), the number of markers is
    bounded by the length of the range: at most 24 for [days_in_range <= 1],
    at most 28 up to 7 days, at most 31 up to 31 days, and one per started
    week beyond that. *)
Theorem marker_count_bounds :
  forall (differenceInDays : Z -> Z -> Z)
         (format : Z -> string -> string) (timeRange : TimeRange) (width : Z)
         (fuel : nat) (markers : list TimeMarker.t),
    start timeRange <= end_ timeRange ->
    differenceInDays (end_ timeRange) (start timeRange)
    = Z.quot (end_ timeRange - start timeRange) MS_PER_DAY ->
    generateTimeMarkers differenceInDays format timeRange width fuel = Some markers ->
    let days := Z.quot (end_ timeRange - start timeRange) MS_PER_DAY + 1 in
    let count := Z.of_nat (List.length markers) in
    (days <= 1 -> count <= 24)
    /\ (days <= 7 -> count <= 28)
    /\ (days <= 31 -> count <= 31)
    /\ (31 < days -> count = (days - 1) / 7 + 1).
Proof.
  intros differenceInDays format timeRange width fuel markers Hle H24 Hgen
         days count.
  apply generateTimeMarkers_result in Hgen; [ | exact Hle].
  assert (Hcount : count
                   = (end_ timeRange - start timeRange)
                     / intervalMs differenceInDays timeRange + 1).
  { subst count markers. rewrite markersFrom_length. unfold markerCount.
    pose proof (intervalMs_pos differenceInDays timeRange).
    assert (0 <= (end_ timeRange - start timeRange)
                 / intervalMs differenceInDays timeRange)
      by (apply Z.div_pos; lia).
    lia. }
  assert (Hms : intervalMs differenceInDays timeRange
                = intervalHours days * 3600000).
  { unfold intervalMs, daysInRange. rewrite H24. fold days. lia. }
  set (d := end_ timeRange - start timeRange) in *.
  assert (Hd : 0 <= d) by (subst d; lia).
  assert (Hdays : days = d / MS_PER_DAY + 1).
  { subst days. rewrite Z.quot_div_nonneg by (unfold MS_PER_DAY; lia).
    reflexivity. }
  pose proof (Z.div_mod d MS_PER_DAY ltac:(discriminate)) as Hdm.
  pose proof (Z.mod_pos_bound d MS_PER_DAY ltac:(reflexivity)) as Hmod.
  unfold MS_PER_DAY in *.
  rewrite Hcount, Hms.
  destruct (intervalHours_cases days) as [H1 [H7 [H31 Hw]]].
  assert (Hbound : forall h b, 0 < h -> d < b * (h * 3600000) ->
                               d / (h * 3600000) + 1 <= b).
  { intros h b Hh Hb.
    assert (d / (h * 3600000) < b) by (apply Z.div_lt_upper_bound; lia).
    lia. }
  split; [ | split; [ | split]].
  - intros Hdy. rewrite H1 by exact Hdy. apply Hbound; lia.
  - intros Hdy. destruct (Z_le_gt_dec days 1) as [Hs | Hs].
    + rewrite H1 by exact Hs.
      assert (d / (1 * 3600000) + 1 <= 24) by (apply Hbound; lia). lia.
    + rewrite H7 by lia. apply Hbound; lia.
  - intros Hdy. destruct (Z_le_gt_dec days 1) as [Hs | Hs].
    + rewrite H1 by exact Hs.
      assert (d / (1 * 3600000) + 1 <= 24) by (apply Hbound; lia). lia.
    + destruct (Z_le_gt_dec days 7) as [Hs7 | Hs7].
      * rewrite H7 by lia.
        assert (d / (6 * 3600000) + 1 <= 28) by (apply Hbound; lia). lia.
      * rewrite H31 by lia. apply Hbound; lia.
  - intros Hdy. rewrite Hw by exact Hdy. f_equal.
    replace (days - 1) with (d / 86400000) by lia.
    rewrite Z.div_div by lia. reflexivity.
Qed.

Lemma marker_count_bounds_witness :
  exists markers,
    generateTimeMarkers differenceInDays_24h (fun _ f => f)
                        {| start := 0; end_ := 9000000 |} 800 5
    = Some markers
    /\ Z.of_nat (List.length markers) <= 24.
Proof.
  eexists. split; [reflexivity | ].
  match goal with
  | |- Z.of_nat (List.length ?ms) <= _ =>
      destruct (marker_count_bounds
                  differenceInDays_24h (fun _ f => f)
                  {| start := 0; end_ := 9000000 |} 800 5 ms
                  ltac:(simpl; lia) eq_refl eq_refl)
        as [Hday _]
  end.
  apply Hday. vm_compute. discriminate.
Defined.

End MarkerFacts.

(** ** Scrolling to the selected scrobble *)

Module ScrollFacts.
Import ScrobbleTimeline.

Lemma find_first_match (wanted : Z) (pre : list PositionedScrobble.t)
      (p : PositionedScrobble.t) (post : list PositionedScrobble.t) :
  Forall (fun q => id (PositionedScrobble.scrobble q) <> wanted) pre ->
  id (PositionedScrobble.scrobble p) = wanted ->
  find (fun s => id (PositionedScrobble.scrobble s) =? wanted) (pre ++ p :: post)
  = Some p.
Proof.
  intros Hpre Hp. induction Hpre as [ | q pre Hq _ IH]; cbn [app find].
  - apply Z.eqb_eq in Hp. now rewrite Hp.
  - apply Z.eqb_neq in Hq. now rewrite Hq.
Qed.

(** X11.  When the ref is attached and the selected scrobble is among the
    positioned ones, the scroll target is computed from the first entry
    with that id alone, whatever follows it in the list.  If that entry's
    offset is on the timeline, the target is a finite number that is never
    negative and never beyond the entry's offset (hence never beyond the
    width), and it is 0 when the entry lies within half a viewport of the
    left edge. *)
Theorem scroll_target_comes_from_first_match :
  forall (clientWidth width : Z) (pre post : list PositionedScrobble.t)
         (p : PositionedScrobble.t) (scrobble : Scrobble),
    0 <= clientWidth ->
    Forall (fun q => id (PositionedScrobble.scrobble q) <> id scrobble) pre ->
    id (PositionedScrobble.scrobble p) = id scrobble ->
    JSNum.between 0 width (PositionedScrobble.position p) ->
    scrollToScrobble (Some clientWidth) (pre ++ p :: post) scrobble
    = scrollToScrobble (Some clientWidth) [p] scrobble
    /\ exists x q,
        PositionedScrobble.position p = JSNum.Fin x
        /\ scrollToScrobble (Some clientWidth) (pre ++ p :: post) scrobble
           = Some (JSNum.Fin q)
        /\ (0 <= q /\ q <= x /\ x <= inject_Z width)%Q
        /\ ((x <= inject_Z clientWidth / 2)%Q -> (q == 0)%Q).
Proof.
  intros clientWidth width pre post p scrobble Hcw Hpre Hp Hpos.
  assert (Hall : scrollToScrobble (Some clientWidth) (pre ++ p :: post) scrobble
                 = Some (JSNum.max (JSNum.of_Z 0)
                           (JSNum.sub (PositionedScrobble.position p)
                                      (JSNum.div clientWidth 2)))).
  { unfold scrollToScrobble. now rewrite find_first_match. }
  split.
  - rewrite Hall. unfold scrollToScrobble.
    pose proof (find_first_match (id scrobble) [] p [] (Forall_nil _) Hp) as H1.
    cbn [app] in H1. now rewrite H1.
  - rewrite Hall.
    destruct (PositionedScrobble.position p) as [x | | | ]; try contradiction.
    cbn [JSNum.between] in Hpos. destruct Hpos as [Hx0 Hxw].
    exists x. eexists. split; [reflexivity | ].
    cbn [JSNum.div JSNum.sub JSNum.max JSNum.of_Z].
    split; [reflexivity | ].
    assert (Hhalf : (0 <= clientWidth # 2)%Q)
      by (unfold Qle; cbn [Qnum Qden]; lia).
    assert (Hsub : (x - (clientWidth # 2) <= x)%Q).
    { rewrite <- (Qplus_0_r x) at 2. unfold Qminus. apply Qplus_le_r.
      apply (Qopp_le_compat 0 (clientWidth # 2)). exact Hhalf. }
    split; [ | intros Hleft].
    + split; [apply Q.le_max_l | split; [ | exact Hxw]].
      apply Q.max_lub; [exact Hx0 | exact Hsub].
    + apply Q.max_l.
      assert (Heq : (inject_Z clientWidth / 2 == clientWidth # 2)%Q)
        by (rewrite (Qmake_Qdiv clientWidth 2); reflexivity).
      rewrite Heq in Hleft.
      apply (Qplus_le_l _ _ (clientWidth # 2)). ring_simplify. exact Hleft.
Qed.

Lemma scroll_target_comes_from_first_match_witness :
  let timeRange := {| start := 0; end_ := 1000 |} in
  let positioned :=
    positionScrobbles [sampleScrobble 1 100; sampleScrobble 2 900;
                       sampleScrobble 2 200] timeRange 800 in
  exists q,
    scrollToScrobble (Some 400) positioned (sampleScrobble 2 900)
    = Some (JSNum.Fin q)
    /\ (q <= 800)%Q.
Proof.
  intros timeRange positioned.
  destruct (scroll_target_comes_from_first_match
              400 800
              (positionScrobbles [sampleScrobble 1 100] timeRange 800)
              (positionScrobbles [sampleScrobble 2 200] timeRange 800)
              {| PositionedScrobble.scrobble := sampleScrobble 2 900;
                 PositionedScrobble.position :=
                   JSNum.mul (positionPercentage timeRange 900) (JSNum.of_Z 800) |}
              (sampleScrobble 2 900))
    as [_ [x [q [_ [Hscroll [[_ [Hqx Hxw]] _]]]]]].
  - lia.
  - repeat constructor. discriminate.
  - reflexivity.
  - cbn. unfold Qle. cbn. lia.
  - exists q. split; [exact Hscroll | ].
    eapply Qle_trans; [exact Hqx | exact Hxw].
Defined.

End ScrollFacts.

(** ** More on the stored list *)

Module ResponseFacts.
Import UseScrobbleTimeline UseScrobbleTimelineFacts.

Lemma sort_of_sorted (l : list Scrobble) :
  StronglySorted newerFirst l -> sort l = l.
Proof.
  induction 1 as [ | x l Hs IH Hall]; [reflexivity | ].
  cbn [sort]. rewrite IH.
  destruct l as [ | y l]; [reflexivity | ].
  cbn [insert]. unfold compareFn.
  apply Forall_inv in Hall. unfold newerFirst in Hall.
  destruct (Z.leb_spec (listened_at y - listened_at x) 0); [reflexivity | lia].
Qed.

Lemma findIndexFrom_skip {A : Type} (p : A -> bool) (pre : list A) (x : A)
      (post : list A) (i : Z) :
  Forall (fun z => p z = false) pre -> p x = true ->
  findIndexFrom p (pre ++ x :: post) i = i + Z.of_nat (List.length pre).
Proof.
  intros Hpre Hx. revert i.
  induction Hpre as [ | z pre Hz Hpre IH]; intros i; cbn [app findIndexFrom List.length].
  - rewrite Hx. lia.
  - rewrite Hz, IH. lia.
Qed.

Lemma uniqueScrobbles_suffix (l1 l2 : list Scrobble) :
  NoDup (map id (l1 ++ l2)) ->
  filterFrom (isFirstWithId (l1 ++ l2)) l2 (Z.of_nat (List.length l1)) = l2.
Proof.
  revert l1. induction l2 as [ | x l2 IH]; intros l1 Hnd; [reflexivity | ].
  cbn [filterFrom].
  assert (Hkeep : isFirstWithId (l1 ++ x :: l2) x (Z.of_nat (List.length l1)) = true).
  { unfold isFirstWithId, findIndex. rewrite findIndexFrom_skip.
    - apply Z.eqb_eq. lia.
    - apply Forall_forall. intros z Hz. apply Z.eqb_neq. intros Heq.
      rewrite map_app in Hnd. cbn [map] in Hnd.
      apply NoDup_remove_2 in Hnd. apply Hnd.
      apply in_or_app. left. rewrite <- Heq. now apply in_map.
    - apply Z.eqb_refl. }
  rewrite Hkeep. f_equal.
  replace (l1 ++ x :: l2) with ((l1 ++ [x]) ++ l2) in *
    by (rewrite <- app_assoc; reflexivity).
  replace (Z.of_nat (List.length l1) + 1) with (Z.of_nat (List.length (l1 ++ [x])))
    by (rewrite length_app; cbn [List.length]; lia).
  now apply IH.
Qed.

(** X12.  A response that is already sorted newest first and has no two
    entries with the same id is stored as it is: sorting and de-duplicating
    change nothing. *)
Theorem clean_response_is_stored_unchanged :
  forall (username : string) (replies : Replies) (st : State)
         (raw : list Scrobble) (userId : Z),
    fetchResponse replies = Fulfilled tt ->
    userResponse replies = Fulfilled (Some userId) ->
    response replies = Fulfilled raw ->
    StronglySorted newerFirst raw ->
    NoDup (map id raw) ->
    scrobbles (fetchScrobbles_settle username replies st) = raw.
Proof.
  intros username replies st raw userId Hf Hu Hr Hsorted Hnd.
  unfold fetchScrobbles_settle, tryBlock. rewrite Hf, Hu, Hr.
  cbn [bind setLoading setScrobbles scrobbles].
  rewrite sort_of_sorted by exact Hsorted.
  apply (uniqueScrobbles_suffix [] raw). exact Hnd.
Qed.

Lemma clean_response_is_stored_unchanged_witness :
  scrobbles (fetchScrobbles_settle "rj"
               (fulfilledWith [sampleScrobble 2 9; sampleScrobble 1 5])
               (initialState (mkTimeRange 0 10)))
  = [sampleScrobble 2 9; sampleScrobble 1 5].
Proof.
  apply (clean_response_is_stored_unchanged "rj" _ _ _ 42);
    try reflexivity.
  - repeat constructor; unfold newerFirst; simpl; lia.
  - repeat constructor; simpl; intuition discriminate.
Defined.

Lemma findIndexFrom_split (wanted : Z) (l : list Scrobble) :
  forall i x, In x l -> id x = wanted ->
    exists pre y post,
      l = pre ++ y :: post /\ id y = wanted
      /\ Forall (fun z => id z <> wanted) pre
      /\ findIndexFrom (fun s => id s =? wanted) l i = i + Z.of_nat (List.length pre).
Proof.
  induction l as [ | z l IH]; intros i x Hin Hid; [contradiction | ].
  cbn [findIndexFrom]. destruct (Z.eqb_spec (id z) wanted) as [Hz | Hz].
  - exists [], z, l. cbn. repeat split; [exact Hz | constructor | lia].
  - destruct Hin as [-> | Hin]; [contradiction | ].
    destruct (IH (i + 1) x Hin Hid) as [pre [y [post [-> [Hy [Hpre Hidx]]]]]].
    exists (z :: pre), y, post. cbn [app List.length].
    repeat split; [exact Hy | now constructor | ].
    rewrite Hidx. lia.
Qed.

Lemma sorted_after_pivot {A : Type} (R : A -> A -> Prop) (pre : list A) (y : A)
      (post : list A) :
  StronglySorted R (pre ++ y :: post) -> Forall (R y) post.
Proof.
  induction pre as [ | z pre IH]; cbn [app]; intros Hs.
  - now apply StronglySorted_inv in Hs.
  - apply StronglySorted_inv in Hs. now apply IH.
Qed.

(** X13.  Of the entries of a response that share an id, the one kept is a
    newest one: for every scrobble of the response the stored list has an
    entry with the same id that is at least as recent. *)
Theorem newest_duplicate_is_kept :
  forall (username : string) (replies : Replies) (st : State)
         (raw : list Scrobble) (userId : Z) (x : Scrobble),
    fetchResponse replies = Fulfilled tt ->
    userResponse replies = Fulfilled (Some userId) ->
    response replies = Fulfilled raw ->
    In x raw ->
    exists y,
      In y (scrobbles (fetchScrobbles_settle username replies st))
      /\ id y = id x
      /\ listened_at x <= listened_at y.
Proof.
  intros username replies st raw userId x Hf Hu Hr Hx.
  unfold fetchScrobbles_settle, tryBlock. rewrite Hf, Hu, Hr.
  cbn [bind setLoading setScrobbles scrobbles].
  pose proof (sort_sorted raw) as Hsorted.
  apply (Permutation_in _ (sort_Permutation raw)) in Hx.
  destruct (findIndexFrom_split (id x) (sort raw) 0 x Hx eq_refl)
    as [pre [y [post [Hl [Hy [Hpre Hidx]]]]]].
  exists y. split; [ | split; [exact Hy | ]].
  - unfold uniqueScrobbles. rewrite Hl at 2. rewrite filterFrom_app.
    apply in_or_app. right. cbn [filterFrom].
    assert (Hkeep : isFirstWithId (sort raw) y (0 + Z.of_nat (List.length pre)) = true).
    { unfold isFirstWithId, findIndex. rewrite Hy, Hidx. apply Z.eqb_refl. }
    rewrite Hkeep. now left.
  - rewrite Hl in Hx, Hsorted. apply in_app_or in Hx.
    destruct Hx as [Hx | [<- | Hx]].
    + rewrite Forall_forall in Hpre. now apply Hpre in Hx.
    + lia.
    + apply sorted_after_pivot in Hsorted.
      rewrite Forall_forall in Hsorted. apply (Hsorted x Hx).
Qed.

Lemma newest_duplicate_is_kept_witness :
  exists y,
    In y (scrobbles (fetchScrobbles_settle "rj"
                       (fulfilledWith [sampleScrobble 1 5; sampleScrobble 1 7])
                       (initialState (mkTimeRange 0 10))))
    /\ id y = 1 /\ 5 <= listened_at y.
Proof.
  apply (newest_duplicate_is_kept
           "rj" (fulfilledWith [sampleScrobble 1 5; sampleScrobble 1 7])
           (initialState (mkTimeRange 0 10))
           [sampleScrobble 1 5; sampleScrobble 1 7] 42 (sampleScrobble 1 5));
    try reflexivity.
  left. reflexivity.
Defined.

(** X14.  When the user lookup answers without a user, the fetch fails with
    the message "User <username> not found", whatever the scrobbles call
    would have returned, and the displayed list stays as it was. *)
Theorem unknown_user_is_reported :
  forall (username : string) (replies : Replies) (st : State),
    fetchResponse replies = Fulfilled tt ->
    userResponse replies = Fulfilled None ->
    let st' := fetchScrobbles_settle username replies st in
    error st' = Some (String.append "User " (String.append username " not found"))
    /\ loading st' = false
    /\ scrobbles st' = scrobbles st.
Proof.
  intros username replies st Hf Hu st'. subst st'.
  unfold fetchScrobbles_settle, tryBlock. rewrite Hf, Hu.
  repeat split.
Qed.

Lemma unknown_user_is_reported_witness :
  error (fetchScrobbles_settle "rj"
           {| fetchResponse := Fulfilled tt;
              userResponse := Fulfilled None;
              response := Fulfilled [sampleScrobble 1 5] |}
           (initialState (mkTimeRange 0 10)))
  = Some "User rj not found"%string.
Proof.
  destruct (unknown_user_is_reported
              "rj"
              {| fetchResponse := Fulfilled tt;
                 userResponse := Fulfilled None;
                 response := Fulfilled [sampleScrobble 1 5] |}
              (initialState (mkTimeRange 0 10)) eq_refl eq_refl)
    as [Herr _].
  exact Herr.
Defined.

(** X15.  An error is cleared when a fetch begins, not when one succeeds: a
    fetch that begins and succeeds leaves no error and shows its list, while
    the success of a fetch alone leaves the error field as it finds it. *)
Theorem error_is_cleared_at_begin :
  forall (username : string) (replies : Replies) (st : State)
         (raw : list Scrobble) (userId : Z),
    username <> EmptyString ->
    fetchResponse replies = Fulfilled tt ->
    userResponse replies = Fulfilled (Some userId) ->
    response replies = Fulfilled raw ->
    let began := fetchScrobbles_begin username st in
    (error began = None /\ loading began = true
     /\ scrobbles began = scrobbles st)
    /\ (let st' := fetchScrobbles_settle username replies began in
        error st' = None /\ loading st' = false
        /\ scrobbles st' = uniqueScrobbles (sort raw))
    /\ error (fetchScrobbles_settle username replies st) = error st.
Proof.
  intros username replies st raw userId Hname Hf Hu Hr began.
  subst began. unfold fetchScrobbles_begin, fetchScrobbles_settle, tryBlock.
  rewrite Hf, Hu, Hr.
  destruct username; [congruence | ].
  repeat split.
Qed.

Lemma error_is_cleared_at_begin_witness :
  let failed := setError (Some "Network Error"%string)
                         (initialState (mkTimeRange 0 10)) in
  error (fetchScrobbles_settle "rj" (fulfilledWith [sampleScrobble 1 5])
           (fetchScrobbles_begin "rj" failed)) = None
  /\ error (fetchScrobbles_settle "rj" (fulfilledWith [sampleScrobble 1 5]) failed)
     = Some "Network Error"%string.
Proof.
  intros failed.
  destruct (error_is_cleared_at_begin
              "rj" (fulfilledWith [sampleScrobble 1 5]) failed
              [sampleScrobble 1 5] 42
              ltac:(discriminate) eq_refl eq_refl eq_refl)
    as [_ [[Hclear _] Hkeep]].
  split; [exact Hclear | exact Hkeep].
Defined.

End ResponseFacts.

(** ** Runs of the hook *)

Module HookRunFacts.
Import UseScrobbleTimeline.

(** A property of the hook that holds after mounting and is kept by every
    event holds after every run. *)
Lemma run_invariant (P : Hook -> Prop) username :
  (forall h ev h', P h -> step username h ev = Some h' -> P h') ->
  forall evs h h', P h -> run username h evs = Some h' -> P h'.
Proof.
  intros Hstep. induction evs as [ | ev evs IH]; intros h h' Hh Hrun.
  - cbn in Hrun. now injection Hrun as <-.
  - cbn [run] in Hrun. destruct (step username h ev) as [h1 | ] eqn:H1;
      [ | discriminate].
    apply (IH h1 h'); [ | exact Hrun]. exact (Hstep _ _ _ Hh H1).
Qed.

(** X16.  Without a username nothing is fetched: after mounting and any
    change of range, selection or hover, no fetch is in flight, the list is
    empty, and neither the loading flag nor an error is set. *)
Theorem empty_username_never_fetches :
  forall (initialTimeRange : TimeRange) (evs : list Event) (h : Hook),
    run EmptyString (mount EmptyString initialTimeRange) evs = Some h ->
    inflight h = []
    /\ scrobbles (state h) = []
    /\ loading (state h) = false
    /\ error (state h) = None.
Proof.
  intros r evs h Hrun.
  apply (run_invariant
           (fun h => inflight h = [] /\ scrobbles (state h) = []
                     /\ loading (state h) = false /\ error (state h) = None)
           EmptyString) with (evs := evs) (h := mount EmptyString r);
    [ | repeat split | exact Hrun].
  intros h0 ev h1 [Hin [Hs [Hl He]]] Hstep.
  destruct ev as [range | range replies | s | s]; cbn [step] in Hstep.
  - injection Hstep as <-. cbn. auto.
  - rewrite Hin in Hstep. discriminate.
  - injection Hstep as <-. cbn. auto.
  - injection Hstep as <-. cbn. auto.
Qed.

Lemma empty_username_never_fetches_witness :
  exists h,
    run EmptyString (mount EmptyString {| start := 0; end_ := 1000 |})
        [RangeChanged {| start := 5000; end_ := 9000 |}; Hovered None]
    = Some h
    /\ inflight h = [] /\ loading (state h) = false.
Proof.
  eexists. split; [reflexivity | ].
  match goal with
  | |- inflight ?h = _ /\ _ =>
      destruct (empty_username_never_fetches
                  {| start := 0; end_ := 1000 |}
                  [RangeChanged {| start := 5000; end_ := 9000 |}; Hovered None]
                  h eq_refl)
        as [Hin [_ [Hl _]]]
  end.
  split; [exact Hin | exact Hl].
Defined.

(** X17.  The loading flag is never left on without a request: after
    mounting and any run of events, if [loading] is set then a fetch is in
    flight. *)
Theorem loading_implies_fetch_in_flight :
  forall (username : string) (initialTimeRange : TimeRange)
         (evs : list Event) (h : Hook),
    run username (mount username initialTimeRange) evs = Some h ->
    loading (state h) = true ->
    inflight h <> [].
Proof.
  intros username r evs h Hrun.
  apply (run_invariant
           (fun h => loading (state h) = true -> inflight h <> [])
           username) with (evs := evs) (h := mount username r);
    [ | | exact Hrun].
  - intros h0 ev h1 Hinv Hstep.
    destruct ev as [range | range replies | s | s]; cbn [step] in Hstep.
    + injection Hstep as <-. cbn [state inflight runFetchEffect].
      unfold fetchScrobbles_begin. destruct (isEmpty username).
      * exact Hinv.
      * intros _ Hnil. now apply app_eq_nil in Hnil as [_ ?].
    + destruct (removeFirst range (inflight h0)); [ | discriminate].
      injection Hstep as <-. cbn [state]. unfold fetchScrobbles_settle.
      destruct (tryBlock username replies); cbn; discriminate.
    + injection Hstep as <-. exact Hinv.
    + injection Hstep as <-. exact Hinv.
  - unfold mount, runFetchEffect, fetchScrobbles_begin. cbn [state inflight].
    destruct (isEmpty username); cbn; [discriminate | ].
    intros _ Hnil. discriminate.
Qed.

Lemma loading_implies_fetch_in_flight_witness :
  exists h,
    run "rj" (mount "rj" {| start := 0; end_ := 1000 |})
        [FetchSettled {| start := 0; end_ := 1000 |} (fulfilledWith []);
         RangeChanged {| start := 5000; end_ := 9000 |}]
    = Some h
    /\ loading (state h) = true
    /\ inflight h <> [].
Proof.
  eexists. split; [reflexivity | split; [reflexivity | ]].
  match goal with
  | |- inflight ?h <> _ =>
      apply (loading_implies_fetch_in_flight
               "rj" {| start := 0; end_ := 1000 |}
               [FetchSettled {| start := 0; end_ := 1000 |} (fulfilledWith []);
                RangeChanged {| start := 5000; end_ := 9000 |}]
               h eq_refl eq_refl)
  end.
Defined.

End HookRunFacts.

(** ** What the view shows *)

Module ViewFacts.
Import UseScrobbleTimeline ScrobbleTimelineView MUIScrobbleTimeline.

(** X18.  In every state exactly one of the four blocks is rendered: the
    spinner, the error, the timeline or the empty message; and the
    timeline is rendered only with a non-empty list, so with at least one
    page. *)
Theorem exactly_one_panel :
  forall st : State,
    (exists panel, render st = [panel])
    /\ (forall l, In (TimelinePanel l) (render st) ->
          l = scrobbles st /\ l <> [] /\ 1 <= totalPages l).
Proof.
  intros st. unfold render, truthy.
  destruct (loading st), (error st) as [message | ], (scrobbles st) as [ | s l] eqn:Hl;
    try destruct (isEmpty message);
    cbn -[totalPages]; (split; [eexists; reflexivity | ]);
    intros l0 Hin;
    repeat (destruct Hin as [Hin | Hin]; try discriminate Hin; try contradiction).
  all: injection Hin as <-.
  all: split; [reflexivity | split; [discriminate | ]].
  all: apply MUIScrobbleTimelineFacts.totalPages_pos; discriminate.
Qed.

Lemma exactly_one_panel_witness :
  render (setScrobbles [sampleScrobble 1 5] (initialState (mkTimeRange 0 10)))
  = [TimelinePanel [sampleScrobble 1 5]]
  /\ 1 <= totalPages [sampleScrobble 1 5].
Proof.
  split; [reflexivity | ].
  destruct (exactly_one_panel
              (setScrobbles [sampleScrobble 1 5] (initialState (mkTimeRange 0 10))))
    as [_ Htimeline].
  destruct (Htimeline [sampleScrobble 1 5] ltac:(left; reflexivity))
    as [_ [_ Hpages]].
  exact Hpages.
Defined.

(** X19.  After a fetch has failed with a non-empty message the view shows
    that message and nothing else: the list is kept in the state but the
    timeline is not rendered.  A failure whose message is empty is not
    shown: the view renders the kept list as if the fetch had not failed. *)
Theorem failed_fetch_hides_the_timeline :
  forall (username : string) (replies : Replies) (st : State) (err : Thrown),
    username <> EmptyString ->
    tryBlock username replies = Rejected err ->
    let st' := fetchScrobbles_settle username replies
                 (fetchScrobbles_begin username st) in
    (errorMessage err <> EmptyString ->
       render st' = [ErrorPanel (errorMessage err)])
    /\ (errorMessage err = EmptyString ->
          render st' = match scrobbles st with
                       | [] => [EmptyPanel]
                       | _ => [TimelinePanel (scrobbles st)]
                       end).
Proof.
  intros username replies st err Hname Hfail st'. subst st'.
  unfold fetchScrobbles_settle. rewrite Hfail.
  unfold fetchScrobbles_begin. destruct username; [congruence | ].
  cbn [isEmpty]. unfold render, truthy.
  cbn [setLoading setError loading error scrobbles].
  split; intros Hmsg.
  - destruct (errorMessage err); [congruence | ]. reflexivity.
  - rewrite Hmsg. destruct (scrobbles st); reflexivity.
Qed.

Lemma failed_fetch_hides_the_timeline_witness :
  let st := setScrobbles [sampleScrobble 1 5] (initialState (mkTimeRange 0 10)) in
  let replies := {| fetchResponse := Rejected (ErrorObject "Network Error");
                    userResponse := Fulfilled (Some 42);
                    response := Fulfilled [] |} in
  render (fetchScrobbles_settle "rj" replies (fetchScrobbles_begin "rj" st))
  = [ErrorPanel "Network Error"].
Proof.
  intros st replies.
  destruct (failed_fetch_hides_the_timeline
              "rj" replies st (ErrorObject "Network Error")
              ltac:(discriminate) eq_refl)
    as [Hshown _].
  apply Hshown. discriminate.
Defined.

(** *** The page across a failed fetch *)




End ViewFacts.

(** ** The range selector *)

Module RangeSelectorFacts.
Import DateFns ScrobbleTimeline MUITimeRangeSelector.

Lemma div_of_block (D q r : Z) : 0 < D -> 0 <= r < D -> (q * D + r) / D = q.
Proof.
  intros HD Hr. rewrite Z.add_comm, Z.div_add by lia.
  rewrite Z.div_small by lia. lia.
Qed.

Section LocalTime.
Variable tz : Z.

(** The start of the local day of [d] is [q × day - tz] for the day number
    [q] of [d]. *)
Lemma startOfDay_spec (d : Z) :
  exists q r, d + tz = q * MS_PER_DAY + r /\ 0 <= r < MS_PER_DAY
              /\ setHours_0_0_0_0 tz d = q * MS_PER_DAY - tz.
Proof.
  exists ((d + tz) / MS_PER_DAY), ((d + tz) mod MS_PER_DAY).
  pose proof (Z.div_mod (d + tz) MS_PER_DAY ltac:(discriminate)).
  pose proof (Z.mod_pos_bound (d + tz) MS_PER_DAY ltac:(reflexivity)).
  unfold setHours_0_0_0_0. repeat split; lia.
Qed.

Lemma startOfDay_back (days d : Z) :
  setHours_0_0_0_0 tz (setDate_back days d)
  = setHours_0_0_0_0 tz d - days * MS_PER_DAY.
Proof.
  unfold setHours_0_0_0_0, setDate_back.
  replace (d - days * MS_PER_DAY + tz) with (d + tz + (- days) * MS_PER_DAY) by lia.
  rewrite Z.div_add by discriminate. lia.
Qed.


Lemma preset_endpoints (now days : Z) :
  exists q r,
    now + tz = q * MS_PER_DAY + r /\ 0 <= r < MS_PER_DAY
    /\ start (handleRangeClick tz now days) = (q - days) * MS_PER_DAY - tz
    /\ end_ (handleRangeClick tz now days) = (q + 1) * MS_PER_DAY - 1 - tz.
Proof.
  destruct (startOfDay_spec now) as [q [r [Hd [Hr Hs]]]].
  exists q, r. split; [exact Hd | split; [exact Hr | ]].
  unfold handleRangeClick. cbn [start end_].
  rewrite startOfDay_back. unfold setHours_23_59_59_999. rewrite Hs.
  split; lia.
Qed.

End LocalTime.

(** X20.  In a zone with a fixed offset [tz] (where [differenceInDays] is
    [differenceInDays_24h]) a preset of [days >= 0] days gives a range from
    the start of the local day [days] days ago to the last millisecond of
    today: it contains the present moment, spans [days + 1] local days, so
    [days_in_range] is [days + 1]; hence the presets of 7 and 30 days get a
    marker every 24 hours and those of 90 and 365 days one every week. *)
Theorem preset_range_spans_days_plus_one :
  forall (tz now days : Z),
    0 <= days ->
    let range := handleRangeClick tz now days in
    start range <= now <= end_ range
    /\ end_ range - start range = (days + 1) * MS_PER_DAY - 1
    /\ daysInRange differenceInDays_24h range = days + 1
    /\ (7 <= days <= 30 ->
        intervalHours (daysInRange differenceInDays_24h range) = 24)
    /\ (31 <= days ->
        intervalHours (daysInRange differenceInDays_24h range) = 168).
Proof.
  intros tz now days Hdays range.
  destruct (preset_endpoints tz now days) as [q [r [Hnow [Hr [Hs He]]]]].
  fold range in Hs, He.
  assert (Hspan : end_ range - start range = (days + 1) * MS_PER_DAY - 1) by lia.
  assert (Hdir : daysInRange differenceInDays_24h range = days + 1).
  { unfold daysInRange, differenceInDays_24h. rewrite Hspan.
    rewrite Z.quot_div_nonneg by (unfold MS_PER_DAY; lia).
    replace ((days + 1) * MS_PER_DAY - 1)
      with (days * MS_PER_DAY + (MS_PER_DAY - 1)) by lia.
    rewrite div_of_block; [reflexivity | reflexivity | unfold MS_PER_DAY; lia]. }
  unfold MS_PER_DAY in *.
  split; [lia | split; [lia | split; [exact Hdir | ]]].
  rewrite Hdir. destruct (ScrobbleTimelineFacts.intervalHours_cases (days + 1))
    as [_ [_ [H24 H168]]].
  split; intros H; [apply H24 | apply H168]; lia.
Qed.

Lemma preset_range_spans_days_plus_one_witness :
  daysInRange differenceInDays_24h (handleRangeClick 3600000 1700000000000 7) = 8
  /\ intervalHours
       (daysInRange differenceInDays_24h (handleRangeClick 3600000 1700000000000 7))
     = 24.
Proof.
  destruct (preset_range_spans_days_plus_one 3600000 1700000000000 7 ltac:(lia))
    as [_ [_ [Hdays [Hint _]]]].
  split; [exact Hdays | apply Hint; lia].
Defined.



(** X22.  The selector never hands out a range whose start is after its
    end: starting from such a range, after any sequence of preset clicks
    (of a non-negative number of days) and date picks the current range
    still has [start <= end]; a pick that would break this is ignored. *)
Theorem selector_keeps_start_before_end :
  forall (tz : Z) (actions : list Action) (currentRange : TimeRange),
    Forall (fun a => match a with
                     | ClickPreset _ days => 0 <= days
                     | _ => True
                     end) actions ->
    start currentRange <= end_ currentRange ->
    let range := fold_left (apply tz) actions currentRange in
    start range <= end_ range.
Proof.
  intros tz actions. induction actions as [ | a actions IH];
    intros currentRange Hvalid Hord; [exact Hord | ].
  cbn [fold_left]. apply IH; [now inversion Hvalid | ].
  apply Forall_inv in Hvalid.
  destruct a as [now days | [date | ] | [date | ]]; cbn [apply].
  - destruct (preset_endpoints tz now days) as [q [r [_ [_ [Hs He]]]]].
    rewrite Hs, He. unfold MS_PER_DAY. lia.
  - unfold handleStartDateChange.
    destruct (Z.leb_spec (setHours_0_0_0_0 tz date) (end_ currentRange));
      [cbn [start end_]; lia | exact Hord].
  - exact Hord.
  - unfold handleEndDateChange.
    destruct (Z.leb_spec (start currentRange) (setHours_23_59_59_999 tz date));
      [cbn [start end_]; lia | exact Hord].
  - exact Hord.
Qed.

Lemma selector_keeps_start_before_end_witness :
  let range := fold_left (apply 0)
                 [ClickPreset 1700000000000 7; PickStart (Some 1800000000000);
                  PickEnd (Some 1699900000000)]
                 {| start := 0; end_ := 1000 |} in
  start range <= end_ range.
Proof.
  apply selector_keeps_start_before_end.
  - repeat constructor. lia.
  - simpl. lia.
Defined.

End RangeSelectorFacts.

(** ** The table of scrobbles *)

Module ScrobbleListFacts.
Import UseScrobbleTimeline ScrobbleList.

Lemma last_of_cons {A : Type} (a d : A) (l : list A) : last (a :: l) d = last l a.
Proof.
  revert a d. induction l as [ | b l IH]; intros a d; [reflexivity | ].
  change (last (a :: b :: l) d) with (last (b :: l) d).
  now rewrite (IH b d), (IH b a).
Qed.

Lemma nth_error_after_prefix {A : Type} (h : A) (l rest : list A) :
  nth_error (h :: l ++ rest) (List.length l) = Some (last l h).
Proof.
  revert h. induction l as [ | a l IH]; intros h; [reflexivity | ].
  cbn [List.length nth_error app]. rewrite IH. f_equal.
  symmetry. apply last_of_cons.
Qed.

(** X23.  The rows looked up by [scrollToScrobble] include the header row
    of the table, so the row scrolled into view for the selected scrobble
    is the one just above its own: the row of the preceding scrobble, or
    the header row when the selected scrobble is the first of the list.
    Without an attached ref, or for a scrobble that is not in the list,
    nothing is scrolled. *)
Theorem list_scrolls_to_the_row_above :
  forall (pre post : list Scrobble) (x : Scrobble),
    Forall (fun z => id z <> id x) pre ->
    scrollToScrobble true (pre ++ x :: post) x
    = Some (last (map ScrobbleRow pre) HeaderRow)
    /\ scrollToScrobble false (pre ++ x :: post) x = None
    /\ scrollToScrobble true pre x = None.
Proof.
  intros pre post x Hpre.
  assert (Hfalse : Forall (fun z => (id z =? id x) = false) pre).
  { eapply Forall_impl; [ | exact Hpre]. intros z Hz. now apply Z.eqb_neq. }
  split; [ | split; [reflexivity | ]].
  - unfold scrollToScrobble, findIndex. cbn [negb].
    rewrite ResponseFacts.findIndexFrom_skip
      by (try exact Hfalse; apply Z.eqb_refl).
    destruct (Z.eqb_spec (0 + Z.of_nat (List.length pre)) (-1)); [lia | ].
    unfold querySelectorAll_tr.
    destruct (Z.ltb_spec 0 (Z.of_nat (List.length (pre ++ x :: post)))) as [_ | H];
      [ | rewrite length_app in H; cbn [List.length] in H; lia].
    destruct (Z.leb_spec
                (Z.of_nat (List.length (HeaderRow :: map ScrobbleRow (pre ++ x :: post))))
                (0 + Z.of_nat (List.length pre))) as [H | _].
    { cbn [List.length] in H. rewrite length_map, length_app in H. lia. }
    replace (Z.to_nat (0 + Z.of_nat (List.length pre)))
      with (List.length (map ScrobbleRow pre))
      by (rewrite length_map; lia).
    rewrite map_app. apply nth_error_after_prefix.
  - unfold scrollToScrobble, findIndex. cbn [negb].
    assert (Hnone : forall i, findIndexFrom (fun s => id s =? id x) pre i = -1).
    { clear Hpre. induction Hfalse as [ | z l Hz _ IH]; intros i;
        cbn [findIndexFrom]; [reflexivity | ]. rewrite Hz. apply IH. }
    rewrite Hnone. reflexivity.
Qed.

Lemma list_scrolls_to_the_row_above_witness :
  scrollToScrobble true
    [sampleScrobble 1 9; sampleScrobble 2 7; sampleScrobble 3 5]
    (sampleScrobble 2 7)
  = Some (ScrobbleRow (sampleScrobble 1 9)).
Proof.
  destruct (list_scrolls_to_the_row_above
              [sampleScrobble 1 9] [sampleScrobble 3 5] (sampleScrobble 2 7))
    as [H _].
  - repeat constructor. discriminate.
  - exact H.
Defined.

End ScrobbleListFacts.

(** ** Pages of a fetched list *)

Module FetchedPageFacts.
Import UseScrobbleTimeline UseScrobbleTimelineFacts MUIScrobbleTimeline.

Lemma Array_slice_middle {A : Type} (l : list A) (a b : Z) :
  exists before after, l = before ++ Array_slice l a b ++ after.
Proof.
  unfold Array_slice. cbv zeta.
  match goal with
  | |- exists before after, _ = _ ++ firstn ?n (skipn ?k _) ++ _ =>
      exists (firstn k l), (skipn n (skipn k l))
  end.
  now rewrite !firstn_skipn.
Qed.

Lemma StronglySorted_app_l {A : Type} (R : A -> A -> Prop) (l1 l2 : list A) :
  StronglySorted R (l1 ++ l2) -> StronglySorted R l1.
Proof.
  induction l1 as [ | x l1 IH]; cbn [app]; intros Hs; [constructor | ].
  apply StronglySorted_inv in Hs. destruct Hs as [Hs Hall].
  constructor; [now apply IH | ].
  apply Forall_app in Hall. tauto.
Qed.

Lemma StronglySorted_app_r {A : Type} (R : A -> A -> Prop) (l1 l2 : list A) :
  StronglySorted R (l1 ++ l2) -> StronglySorted R l2.
Proof.
  induction l1 as [ | x l1 IH]; cbn [app]; intros Hs; [exact Hs | ].
  apply StronglySorted_inv in Hs. now apply IH.
Qed.

(** X24.  Every page of the list stored after a successful fetch is itself
    sorted newest first, has no two entries with the same id, and shows
    only scrobbles of the response. *)
Theorem pages_of_a_fetched_list :
  forall (username : string) (replies : Replies) (st : State)
         (raw : list Scrobble) (userId : Z) (currentPage : Z),
    fetchResponse replies = Fulfilled tt ->
    userResponse replies = Fulfilled (Some userId) ->
    response replies = Fulfilled raw ->
    let page := currentItems
                  (scrobbles (fetchScrobbles_settle username replies st))
                  currentPage in
    StronglySorted newerFirst page
    /\ NoDup (map id page)
    /\ (forall x, In x page -> In x raw).
Proof.
  intros username replies st raw userId currentPage Hf Hu Hr page.
  destruct (fetched_scrobbles_unique_and_sorted_parts
              username replies st raw userId Hf Hu Hr)
    as [Hnd [Hsorted Hsub]].
  subst page. unfold currentItems.
  set (shown := scrobbles (fetchScrobbles_settle username replies st)) in *.
  destruct (Array_slice_middle shown
              (currentPage * itemsPerPage - itemsPerPage)
              (currentPage * itemsPerPage))
    as [before [after Hsplit]].
  set (page := Array_slice shown _ _) in *.
  split; [ | split].
  - rewrite Hsplit in Hsorted.
    apply StronglySorted_app_r, StronglySorted_app_l in Hsorted. exact Hsorted.
  - rewrite Hsplit, !map_app in Hnd.
    apply NoDup_app_remove_l, NoDup_app_remove_r in Hnd. exact Hnd.
  - intros x Hx. apply Hsub. rewrite Hsplit.
    apply in_or_app. right. apply in_or_app. now left.
Qed.

Lemma pages_of_a_fetched_list_witness :
  let raw := map (fun k => sampleScrobble (Z.of_nat k mod 40) (Z.of_nat k))
                 (seq 0 60) in
  StronglySorted newerFirst
    (currentItems
       (scrobbles (fetchScrobbles_settle "rj" (fulfilledWith raw)
                     (initialState (mkTimeRange 0 10))))
       2).
Proof.
  intros raw.
  destruct (pages_of_a_fetched_list
              "rj" (fulfilledWith raw) (initialState (mkTimeRange 0 10))
              raw 42 2 eq_refl eq_refl eq_refl)
    as [Hsorted _].
  exact Hsorted.
Defined.

End FetchedPageFacts.

(** ** The activity heatmap *)

Module HeatmapFacts.
Import ListeningActivityHeatmap.

Lemma fold_max_ge (cs : list Z) (c : Z) :
  c <= fold_left Z.max cs c
  /\ Forall (fun z => z <= fold_left Z.max cs c) cs.
Proof.
  revert c. induction cs as [ | a cs IH]; intros c; cbn [fold_left].
  - split; [lia | constructor].
  - destruct (IH (Z.max c a)) as [H1 H2]. split; [lia | ].
    constructor; [lia | exact H2].
Qed.

Lemma maxTrackCount_ge (activities : list ListeningActivity) (a : ListeningActivity) :
  In a activities -> track_count a <= maxTrackCount activities.
Proof.
  unfold maxTrackCount. intros Hin. apply (in_map track_count) in Hin.
  destruct (map track_count activities) as [ | c cs]; [contradiction | ].
  unfold Math_max. destruct (fold_max_ge cs c) as [Hc Hcs].
  destruct Hin as [<- | Hin]; [exact Hc | ].
  rewrite Forall_forall in Hcs. now apply Hcs.
Qed.

Lemma clamp_between (lo hi : Z) (q : Q) :
  lo <= hi ->
  JSNum.between lo hi
    (JSNum.max (JSNum.of_Z lo) (JSNum.min (JSNum.of_Z hi) (JSNum.Fin q))).
Proof.
  intros Hle. cbn [JSNum.of_Z JSNum.min JSNum.max JSNum.between]. split.
  - apply Q.le_max_l.
  - apply Q.max_lub; [now rewrite <- Zle_Qle | apply Q.le_min_l].
Qed.

(** X25.  When some period has a positive track count, every point of the
    heatmap gets a hue between 0 and 240 and a radius between 5 and 20, and
    a period with the largest count gets hue 0 (red) and radius 20. *)
Theorem heatmap_points_are_bounded :
  forall (format : Z -> string -> string)
         (activities : list ListeningActivity) (point : DataPoint),
    0 < maxTrackCount activities ->
    In point (dataPoints format activities) ->
    JSNum.between 0 240 (hue point)
    /\ JSNum.between 5 20 (r point)
    /\ (trackCount point = maxTrackCount activities ->
        JSNum.equals (hue point) 0 /\ JSNum.equals (r point) 20).
Proof.
  intros format activities point Hmax Hin.
  unfold dataPoints in Hin. apply in_map_iff in Hin.
  destruct Hin as [a [<- Ha]].
  unfold dataPoint. cbn [hue r trackCount].
  destruct (maxTrackCount activities) as [ | m | m] eqn:Hm; try lia.
  cbn [JSNum.div JSNum.sub JSNum.mul JSNum.add JSNum.of_Z].
  split; [apply (clamp_between 0 240); lia | ].
  split; [apply (clamp_between 5 20); lia | ].
  intros ->. cbn [JSNum.min JSNum.max JSNum.equals].
  assert (H1 : (Z.pos m # m == 1)%Q)
    by (unfold Qeq; cbn [Qnum Qden]; lia).
  assert (Hx : (inject_Z 240 * (inject_Z 1 - (Z.pos m # m)) == 0)%Q)
    by (rewrite H1; reflexivity).
  assert (Hy : (inject_Z 5 + inject_Z 15 * (Z.pos m # m) == 20)%Q)
    by (rewrite H1; reflexivity).
  cbn [JSNum.of_Z JSNum.min JSNum.max JSNum.equals].
  split.
  - rewrite Q.max_l; [reflexivity | ].
    eapply Qle_trans; [apply Q.le_min_r | ]. rewrite Hx. discriminate.
  - rewrite Q.max_r.
    + rewrite Q.min_r; [exact Hy | rewrite Hy; discriminate].
    + apply Q.min_glb; [discriminate | rewrite Hy; discriminate].
Qed.

Lemma heatmap_points_are_bounded_witness :
  let activities := [mkActivity 0 10; mkActivity 1000 40] in
  Forall (fun point => JSNum.between 0 240 (hue point))
         (dataPoints (fun _ f => f) activities).
Proof.
  intros activities. apply Forall_forall. intros point Hin.
  destruct (heatmap_points_are_bounded (fun _ f => f) activities point
              ltac:(vm_compute; reflexivity) Hin)
    as [Hhue _].
  exact Hhue.
Defined.

(** X26.  When every period has a track count of 0, the counts are divided
    by a largest count of 0: the hue and the radius of every point are
    NaN. *)
Theorem heatmap_of_silent_periods_is_nan :
  forall (format : Z -> string -> string)
         (activities : list ListeningActivity) (point : DataPoint),
    Forall (fun a => track_count a = 0) activities ->
    In point (dataPoints format activities) ->
    hue point = JSNum.NaN /\ r point = JSNum.NaN.
Proof.
  intros format activities point Hzero Hin.
  assert (Hmax : maxTrackCount activities = 0).
  { unfold maxTrackCount, Math_max.
    assert (Hall : Forall (fun c => c = 0) (map track_count activities)).
    { apply Forall_forall. intros c Hc. apply in_map_iff in Hc.
      destruct Hc as [a [<- Ha]]. rewrite Forall_forall in Hzero. now apply Hzero. }
    destruct (map track_count activities) as [ | c cs]; [reflexivity | ].
    apply Forall_cons_iff in Hall. destruct Hall as [-> Hcs].
    induction Hcs as [ | z cs -> _ IH]; [reflexivity | exact IH]. }
  unfold dataPoints in Hin. apply in_map_iff in Hin.
  destruct Hin as [a [<- Ha]].
  rewrite Forall_forall in Hzero. specialize (Hzero a Ha).
  unfold dataPoint. cbn [hue r]. rewrite Hmax, Hzero. split; reflexivity.
Qed.

Lemma heatmap_of_silent_periods_is_nan_witness :
  map hue (dataPoints (fun _ f => f) [mkActivity 0 0; mkActivity 1000 0])
  = [JSNum.NaN; JSNum.NaN].
Proof.
  set (activities := [mkActivity 0 0; mkActivity 1000 0]).
  assert (H : forall point, In point (dataPoints (fun _ f => f) activities) ->
                            hue point = JSNum.NaN).
  { intros point Hin.
    destruct (heatmap_of_silent_periods_is_nan (fun _ f => f) activities point
                ltac:(repeat constructor) Hin)
      as [Hhue _].
    exact Hhue. }
  cbn [dataPoints map activities].
  rewrite (H _ ltac:(left; reflexivity)).
  rewrite (H _ ltac:(right; left; reflexivity)).
  reflexivity.
Defined.

End HeatmapFacts.
